(** * data-transfer: the send-bundle form, the history and the settings

    A shallow embedding of the logic of [src/app/(tabs)/index.tsx] (the
    [SendDataScreen] component, and the [HistoryScreen] component that
    follows it in the file) and of [src/app/(tabs)/settings.tsx] (the
    [SettingsScreen] component): form validation, construction of the
    order request, handling of the server's answer, the persisted
    transaction log and the persisted API key.

    Layout:
    - [JS]: the part of JavaScript the files rely on (strings as sequences
      of UTF-16 code units, white space, [trim], the two regular
      expressions, decoded JSON values and how they are written back,
      truthiness, property access, ToString in a template literal);
    - [Eff]: a state monad with exceptions, for [try]/[catch]/[finally];
    - [Platform]: the device the screens run on (AsyncStorage, the clock,
      and the trace of dialogs, console lines and HTTP requests);
    - [SendData], [History]: index.tsx;  [Settings]: settings.tsx;
    - [SendActions], [SettingsActions]: the handlers as the screens wire
      them to their buttons and inputs;
    - [FormRules], [LogRules], [SubmissionRules], [CredentialRules],
      [HistoryRules]: the properties in the words of the specification,
      and [Samples];
    - the modules that follow: the lemmas and theorems.

    Environment: the store may reject any operation ([rejects]), and a
    [multiRemove] that rejects may have removed a part of its keys; the
    clock counts milliseconds and never runs backwards; the server's
    behaviour is an [exchange] handed to [sendDataBundle].  What the
    components draw on the screen from their state is not modelled. *)

From Stdlib Require Import ZArith NArith List String Ascii Bool Lia.
From Stdlib Require Import Floats.PrimFloat.
From Stdlib Require Import DecimalString DecimalZ DecimalPos.
Import ListNotations.

Open Scope string_scope.
Open Scope list_scope.
Open Scope Z_scope.

(* ===================================================================== *)
(** * JavaScript values *)
(* ===================================================================== *)

Module JS.

(** A JavaScript string is a sequence of 16-bit code units. *)
Definition jsstring := list N.

(** A string literal of the source (all of them are ASCII). *)
Definition lit (s : string) : jsstring :=
  map N_of_ascii (list_ascii_of_string s).

(** ECMAScript's [WhiteSpace] and [LineTerminator] code points: the class
    [\s] of regular expressions, and what [String.prototype.trim] strips. *)
Definition isWhiteSpace (c : N) : bool :=
  ((9 <=? c) && (c <=? 13)          (* TAB, LF, VT, FF, CR *)
   || (c =? 32)                     (* SPACE *)
   || (c =? 160)                    (* NO-BREAK SPACE *)
   || (c =? 5760)                   (* U+1680 *)
   || (8192 <=? c) && (c <=? 8202)  (* U+2000 .. U+200A *)
   || (c =? 8232) || (c =? 8233)    (* U+2028, U+2029 *)
   || (c =? 8239)                   (* U+202F *)
   || (c =? 8287)                   (* U+205F *)
   || (c =? 12288)                  (* U+3000 *)
   || (c =? 65279))%N.              (* U+FEFF *)

(** The class [\d]: the ten ASCII digits. *)
Definition isDigit (c : N) : bool := ((48 <=? c) && (c <=? 57))%N.

Fixpoint trimStart (s : jsstring) : jsstring :=
  match s with
  | [] => []
  | c :: r => if isWhiteSpace c then trimStart r else s
  end.

Definition trimEnd (s : jsstring) : jsstring := rev (trimStart (rev s)).

(** [s.trim()] *)
Definition trim (s : jsstring) : jsstring := trimEnd (trimStart s).

(** [s.replace(/\s/g, '')]: every white-space code unit is deleted. *)
Definition replace_whitespace (s : jsstring) : jsstring :=
  filter (fun c => negb (isWhiteSpace c)) s.

(** [\d{n}] at the head of [s]: the rest of the input after [n] digits. *)
Fixpoint match_digits (n : nat) (s : jsstring) : option jsstring :=
  match n with
  | O => Some s
  | S n' =>
      match s with
      | c :: r => if isDigit c then match_digits n' r else None
      | [] => None
      end
  end.

(** [/^\d{10}$/.test(s)]: ten digits from the start, then the end of the
    input (without the [m] flag [$] is the end of the string only). *)
Definition test_ten_digits (s : jsstring) : bool :=
  match match_digits 10 s with
  | Some [] => true
  | _ => false
  end.

(** [s.startsWith(p)] *)
Fixpoint startsWith (s p : jsstring) {struct p} : bool :=
  match p with
  | [] => true
  | a :: p' =>
      match s with
      | b :: s' => (a =? b)%N && startsWith s' p'
      | [] => false
      end
  end.

(** A string is truthy when it is not empty. *)
Definition nonempty (s : jsstring) : bool :=
  match s with [] => false | _ :: _ => true end.

(** [s.toLowerCase()] on the letters A-Z (the strings it is applied to,
    the two network names, are ASCII). *)
Definition lower (c : N) : N :=
  if ((65 <=? c) && (c <=? 90))%N then (c + 32)%N else c.

Definition toLowerCase (s : jsstring) : jsstring := map lower s.

(** [`${n}`] for an integral number below 10^21 in absolute value (the
    range of [Date.now()] and of array indices): the decimal digits, with
    a minus sign when negative. *)
Definition Number_toString (n : Z) : jsstring :=
  lit (NilZero.string_of_int (Z.to_int n)).

(** A value decoded from JSON.  Numbers are IEEE 754 doubles; the fields
    of an object are kept in their enumeration order. *)
#[warnings="-register-all"] Inductive json : Type :=
| JNull
| JBool (b : bool)
| JNum (x : float)
| JStr (s : jsstring)
| JArr (items : list json)
| JObj (fields : list (jsstring * json)).

(** A JavaScript value that may also be [undefined]. *)
Definition value := option json.

Definition undefined : value := None.

(** Truthiness: [undefined], [null], [false], [0], [-0], [NaN] and the
    empty string are falsy, everything else (every object and array) is
    truthy. *)
Definition truthy (v : value) : bool :=
  match v with
  | None => false
  | Some JNull => false
  | Some (JBool b) => b
  | Some (JNum x) => negb (PrimFloat.eqb x 0 || negb (PrimFloat.eqb x x))
  | Some (JStr s) => nonempty s
  | Some (JArr _) => true
  | Some (JObj _) => true
  end.

Definition jsstring_eqb (a b : jsstring) : bool :=
  if list_eq_dec N.eq_dec a b then true else false.

(** The first field named [k]. *)
Fixpoint field (k : jsstring) (fs : list (jsstring * json)) : value :=
  match fs with
  | [] => undefined
  | (k', v) :: r => if jsstring_eqb k' k then Some v else field k r
  end.

(** Assignment to the property [k] of an object: an existing property
    keeps its place, a new one goes last. *)
Fixpoint set_field (k : jsstring) (v : json) (fs : list (jsstring * json))
  : list (jsstring * json) :=
  match fs with
  | [] => [(k, v)]
  | (k', v') :: r =>
      if jsstring_eqb k' k then (k', v) :: r else (k', v') :: set_field k v r
  end.

(** [v === 'lit']: strict equality with a string. *)
Definition is_string (v : value) (s : jsstring) : bool :=
  match v with
  | Some (JStr s') => jsstring_eqb s' s
  | _ => false
  end.

(** The last [width] decimal digits of [n], for [0 <= n]. *)
Fixpoint digits (width : nat) (n : Z) : jsstring :=
  match width with
  | O => []
  | S w => digits w (n / 10) ++ [Z.to_N (48 + n mod 10)]
  end.

(** The year of an ISO 8601 date: four digits from 0 to 9999, otherwise a
    sign and six digits. *)
Definition iso_year (y : Z) : jsstring :=
  if (0 <=? y) && (y <=? 9999) then digits 4 y
  else lit (if y <? 0 then "-" else "+") ++ digits 6 (Z.abs y).

(** [new Date(t).toISOString()] for a time value [t] in milliseconds since
    the epoch: the proleptic Gregorian date and the time of day in UTC, as
    [YYYY-MM-DDTHH:mm:ss.sssZ]. *)
Definition toISOString (t : Z) : jsstring :=
  let day := t / 86400000 in
  let ms := t mod 86400000 in
  let z := day + 719468 in                (* days since 0000-03-01 *)
  let era := z / 146097 in                (* 400-year cycles *)
  let doe := z mod 146097 in              (* day of the cycle *)
  let yoe := (doe - doe / 1460 + doe / 36524 - doe / 146096) / 365 in
  let doy := doe - (365 * yoe + yoe / 4 - yoe / 100) in
  let mp := (5 * doy + 2) / 153 in        (* month, counted from March *)
  let d := doy - (153 * mp + 2) / 5 + 1 in
  let m := if mp <? 10 then mp + 3 else mp - 9 in
  let y := yoe + era * 400 + (if m <=? 2 then 1 else 0) in
  iso_year y ++ lit "-" ++ digits 2 m ++ lit "-" ++ digits 2 d
    ++ lit "T" ++ digits 2 (ms / 3600000)
    ++ lit ":" ++ digits 2 (ms / 60000 mod 60)
    ++ lit ":" ++ digits 2 (ms / 1000 mod 60)
    ++ lit "." ++ digits 3 (ms mod 1000) ++ lit "Z".

(** The own enumerable properties an object spread [{...v}] copies. *)
Fixpoint indexed {A} (f : A -> json) (i : Z) (l : list A)
  : list (jsstring * json) :=
  match l with
  | [] => []
  | a :: r => (Number_toString i, f a) :: indexed f (i + 1) r
  end.

Definition spread (v : json) : list (jsstring * json) :=
  match v with
  | JObj fs => fs
  | JArr items => indexed (fun x => x) 0 items
  | JStr s => indexed (fun c => JStr [c]) 0 s
  | JNull | JBool _ | JNum _ => []
  end.

(** What [JSON.parse] reads back from the text [JSON.stringify(v)], for a
    value [v] built from decoded JSON.  A number that is not finite (the
    literal [1e999] decodes to [Infinity]) is written as [null], the
    negative zero as [0]; every other number is written with digits that
    identify it, and booleans, strings, the order of the elements and of
    the fields are written as they are. *)
Fixpoint written (v : json) : json :=
  match v with
  | JNull => JNull
  | JBool b => JBool b
  | JNum x =>
      if PrimFloat.is_finite x
      then (if PrimFloat.is_zero x then JNum 0 else JNum x)
      else JNull
  | JStr s => JStr s
  | JArr items => JArr (map written items)
  | JObj fs => JObj (map (fun kv => (fst kv, written (snd kv))) fs)
  end.

(** Whether [ToString(v)], which a template literal applies to each of its
    values, throws.  For a value decoded from JSON it throws (a TypeError)
    exactly when it reaches an object with an own property [toString]:
    such a property is not callable, and [Object.prototype.valueOf]
    returns the object, which is not a primitive.  An object without it is
    rendered by [Object.prototype.toString]; an array is joined, which
    applies ToString to each element that is not [null]. *)
Fixpoint ToString_throws (v : json) : bool :=
  match v with
  | JObj fs =>
      match field (lit "toString") fs with
      | Some _ => true
      | None => false
      end
  | JArr items => existsb ToString_throws items
  | JNull | JBool _ | JNum _ | JStr _ => false
  end.

End JS.

(* ===================================================================== *)
(** * Effects: state and exceptions *)
(* ===================================================================== *)

Module Eff.

(** What the modelled code can throw. *)
Inductive exn : Type :=
| SyntaxError     (* JSON.parse / response.json() on text that is not JSON *)
| TypeError       (* a property of null, a call of something not a function *)
| StorageError    (* AsyncStorage rejected the operation *)
| NetworkError.   (* fetch rejected: the server was not reached *)

Inductive completion (A : Type) : Type :=
| Normal (a : A)
| Throw (e : exn).

Arguments Normal {A} a.
Arguments Throw {A} e.

(** A computation over a world [W]: what it completes with, and the world
    it leaves.  Changes made before a throw stay. *)
Definition M (W A : Type) : Type := W -> completion A * W.

Definition ret {W A} (a : A) : M W A := fun w => (Normal a, w).

Definition bind {W A B} (m : M W A) (k : A -> M W B) : M W B :=
  fun w =>
    match m w with
    | (Normal a, w') => k a w'
    | (Throw e, w') => (Throw e, w')
    end.

Definition throw {W A} (e : exn) : M W A := fun w => (Throw e, w).

(** [try { body } catch (error) { handler }] *)
Definition try_catch {W A} (body : M W A) (handler : exn -> M W A) : M W A :=
  fun w =>
    match body w with
    | (Normal a, w') => (Normal a, w')
    | (Throw e, w') => handler e w'
    end.

(** [try { body } finally { fin }] *)
Definition try_finally {W A} (body : M W A) (fin : M W unit) : M W A :=
  fun w =>
    match body w with
    | (c, w') =>
        match fin w' with
        | (Normal _, w'') => (c, w'')
        | (Throw e, w'') => (Throw e, w'')
        end
    end.

Definition gets {W A} (f : W -> A) : M W A := fun w => (Normal (f w), w).

Definition modify {W} (f : W -> W) : M W unit := fun w => (Normal tt, f w).

Declare Scope eff_scope.
Delimit Scope eff_scope with eff.

Notation "x <- m ;; k" := (bind m (fun x => k))
  (at level 100, m at next level, right associativity) : eff_scope.
Notation "m ;; k" := (bind m (fun _ => k))
  (at level 100, right associativity) : eff_scope.

End Eff.

(* ===================================================================== *)
(** * The device: AsyncStorage, the clock, and what the app emits *)
(* ===================================================================== *)

Module Platform.
Import JS Eff.
Local Open Scope eff_scope.

(** The string kept under the key ['transactions'].  The program looks at
    it through its truthiness and through [JSON.parse] only, and writes it
    with [JSON.stringify] only, so it is represented by what [JSON.parse]
    makes of it: [NotJson s] is a string [s] that [JSON.parse] rejects (the
    empty string is one), [JsonText v] a JSON text that decodes to [v]. *)
Inductive text : Type :=
| NotJson (s : jsstring)
| JsonText (v : json).

(** The two items the app keeps; [None] is an absent key. *)
Record AsyncStorage : Type := mkStorage {
  api_key : option jsstring;
  transactions : option text;
}.

Inductive storage_op : Type :=
| GetItem (key : string)
| SetItem (key : string)
| RemoveItem (key : string)
| MultiRemove (keys : list string)
| RemoveOf (keys : list string) (key : string).
    (* the removal of [key] as a part of [multiRemove(keys)] *)

(** A piece of a template literal. *)
Inductive piece : Type :=
| Chunk (s : string)
| Newline
| Interpolated (v : value).

(** The message of a dialog. *)
Inductive message : Type :=
| Text (s : string)               (* a string literal of the source *)
| Value (v : json)                (* a value of the response, as it is *)
| Template (parts : list piece).  (* a template literal *)

Inductive event : Type :=
| Alert (title : string) (body : message)
| ConsoleError (label : string) (error : exn)
| ConsoleLog (label : string) (s : jsstring)
| Post (url : string) (body : json).   (* fetch, POST, JSON.stringify body *)

(** The world of a screen whose component state is [S]. *)
Record World (S : Type) : Type := mkWorld {
  ui : S;                          (* the component's state (useState) *)
  storage : AsyncStorage;
  rejects : storage_op -> bool;    (* the operations the store fails on *)
  clock : Z;                       (* milliseconds since the epoch *)
  trace : list event;              (* oldest first *)
}.

Arguments mkWorld {S} _ _ _ _ _.
Arguments ui {S} _.
Arguments storage {S} _.
Arguments rejects {S} _ _.
Arguments clock {S} _.
Arguments trace {S} _.

Section Operations.
Context {S : Type}.
Let W : Type := World S.

Definition with_ui (f : S -> S) (w : W) : W :=
  mkWorld (f (ui w)) (storage w) (rejects w) (clock w) (trace w).

Definition with_storage (f : AsyncStorage -> AsyncStorage) (w : W) : W :=
  mkWorld (ui w) (f (storage w)) (rejects w) (clock w) (trace w).

(** Time passes: the clock never runs backwards. *)
Definition after (elapsed : N) (w : W) : W :=
  mkWorld (ui w) (storage w) (rejects w) (clock w + Z.of_N elapsed) (trace w).

Definition logged (e : event) (w : W) : W :=
  mkWorld (ui w) (storage w) (rejects w) (clock w) (trace w ++ [e]).

Definition emit (e : event) : M W unit := modify (logged e).

(** A call of AsyncStorage: it rejects, or it reads and updates the store.
    At the resolution of the clock it takes no time. *)
Definition storage_call {A} (op : storage_op)
    (f : AsyncStorage -> A * AsyncStorage) : M W A :=
  fun w =>
    if rejects w op then (Throw StorageError, w)
    else let '(a, st) := f (storage w) in
         (Normal a, with_storage (fun _ => st) w).

(** [AsyncStorage.getItem('api_key')] *)
Definition getItem_api_key : M W (option jsstring) :=
  storage_call (GetItem "api_key") (fun st => (api_key st, st)).

(** [AsyncStorage.setItem('api_key', s)] *)
Definition setItem_api_key (s : jsstring) : M W unit :=
  storage_call (SetItem "api_key")
    (fun st => (tt, mkStorage (Some s) (transactions st))).

(** [AsyncStorage.removeItem('api_key')] *)
Definition removeItem_api_key : M W unit :=
  storage_call (RemoveItem "api_key")
    (fun st => (tt, mkStorage None (transactions st))).

(** [AsyncStorage.getItem('transactions')] *)
Definition getItem_transactions : M W (option text) :=
  storage_call (GetItem "transactions") (fun st => (transactions st, st)).

(** [AsyncStorage.setItem('transactions', t)] *)
Definition setItem_transactions (t : text) : M W unit :=
  storage_call (SetItem "transactions")
    (fun st => (tt, mkStorage (api_key st) (Some t))).

(** [AsyncStorage.multiRemove(['api_key', 'transactions'])].  The removal
    is best effort: a call that rejects may have removed none, one or both
    of the keys, and nothing is rolled back.  Which keys a rejected call
    has removed belongs to the failure mode: a key stays when [rejects]
    holds of its removal as a part of the call. *)
Definition multiRemove_all : M W unit :=
  fun w =>
    let keys := ["api_key"; "transactions"] in
    if rejects w (MultiRemove keys)
    then (Throw StorageError,
          with_storage
            (fun st =>
               mkStorage
                 (if rejects w (RemoveOf keys "api_key")
                  then api_key st else None)
                 (if rejects w (RemoveOf keys "transactions")
                  then transactions st else None)) w)
    else (Normal tt, with_storage (fun _ => mkStorage None None) w).

(** [Date.now()], and the time value of [new Date()]. *)
Definition Date_now : M W Z := gets clock.

Definition Alert_alert (title : string) (body : message) : M W unit :=
  emit (Alert title body).

Definition console_error (label : string) (error : exn) : M W unit :=
  emit (ConsoleError label error).

Definition console_log (label : string) (s : jsstring) : M W unit :=
  emit (ConsoleLog label s).

(** Truthiness of a stored string. *)
Definition text_truthy (t : text) : bool :=
  match t with
  | NotJson s => nonempty s
  | JsonText _ => true
  end.

(** [JSON.parse(t)] *)
Definition JSON_parse (t : text) : M W json :=
  match t with
  | NotJson _ => throw SyntaxError
  | JsonText v => ret v
  end.

(** [JSON.stringify(v)]: the text that decodes to [written v]. *)
Definition JSON_stringify (v : json) : text := JsonText (written v).

(** A value of a template literal: ToString is applied to it, and
    [Interpolated v] stands for the string it returns. *)
Definition interpolate (v : value) : M W piece :=
  match v with
  | Some j => if ToString_throws j then throw TypeError
              else ret (Interpolated v)
  | None => ret (Interpolated v)
  end.

(** [v.name] for one of the names [status], [message], [order_id] and
    [wallet_balance_after]: a TypeError on [null]; the field of an object;
    [undefined] on a number, a boolean, a string or an array, whose
    prototypes have no property of these names. *)
Definition prop (v : json) (name : string) : M W value :=
  match v with
  | JNull => throw TypeError
  | JObj fs => ret (field (lit name) fs)
  | _ => ret undefined
  end.

(** [list.unshift(x)]: only an array has the method. *)
Definition unshift (target : json) (x : json) : M W (list json) :=
  match target with
  | JArr items => ret (x :: items)
  | _ => throw TypeError
  end.

(** [items.slice(0, n)] *)
Definition slice0 (n : nat) (items : list json) : list json := firstn n items.

End Operations.

(** What the server does with a request: [fetch] rejects, or a response
    arrives with a status and a body that [response.json()] decodes
    ([Some]) or rejects ([None]). *)
Inductive reply : Type :=
| Unreachable
| Response (status : Z) (body : option json).

(** One round trip: the reply, and the time the request was in flight. *)
Record exchange : Type := mkExchange {
  latency : N;
  answer : reply;
}.

End Platform.

(* ===================================================================== *)
(** * index.tsx: the send-bundle screen *)
(* ===================================================================== *)

Module SendData.
Import JS Eff Platform.
Local Open Scope eff_scope.

(** ['MTN' | 'Telecel'] *)
Inductive Network : Type := MTN | Telecel.

Definition Network_name (n : Network) : jsstring :=
  match n with
  | MTN => lit "MTN"
  | Telecel => lit "Telecel"
  end.

Definition BUNDLE_SIZES (n : Network) : list float :=
  match n with
  | MTN => [1024; 2048; 3072; 4096; 5120; 6144; 8192; 10240; 15360; 20480;
            25600; 30720; 40960; 51200]%float
  | Telecel => [5000; 10000; 15000; 20000; 25000; 30000; 35000; 40000;
                45000; 50000]%float
  end.

(** The table of fixed messages, in the order of the source. *)
Definition ERROR_MESSAGES : list (Z * string) :=
  [ (400, "Missing required fields or invalid input");
    (401, "API key is missing");
    (403, "Invalid API key");
    (409, "Duplicate reference - transaction already exists");
    (422, "Invalid bundle size or unsupported network");
    (402, "Insufficient wallet balance");
    (429, "Rate limit exceeded - please wait before trying again");
    (500, "System error - please try again later") ].

(** [ERROR_MESSAGES[status]] *)
Fixpoint lookup (status : Z) (table : list (Z * string)) : option string :=
  match table with
  | [] => None
  | (code, text) :: rest =>
      if code =? status then Some text else lookup status rest
  end.

(** The component's state, one field per [useState]. *)
Record State : Type := mkState {
  network : Network;
  selectedSize : float;
  phone : jsstring;
  webhookUrl : jsstring;
  loading : bool;
  apiKey : jsstring;
}.

Definition initial : State := mkState MTN 1024 [] [] false [].

Definition W : Type := World State.

Definition setNetwork (n : Network) : M W unit :=
  modify (with_ui (fun s => mkState n (selectedSize s) (phone s)
                              (webhookUrl s) (loading s) (apiKey s))).

Definition setSelectedSize (x : float) : M W unit :=
  modify (with_ui (fun s => mkState (network s) x (phone s)
                              (webhookUrl s) (loading s) (apiKey s))).

Definition setPhone (p : jsstring) : M W unit :=
  modify (with_ui (fun s => mkState (network s) (selectedSize s) p
                              (webhookUrl s) (loading s) (apiKey s))).

Definition setWebhookUrl (u : jsstring) : M W unit :=
  modify (with_ui (fun s => mkState (network s) (selectedSize s) (phone s)
                              u (loading s) (apiKey s))).

Definition setLoading (b : bool) : M W unit :=
  modify (with_ui (fun s => mkState (network s) (selectedSize s) (phone s)
                              (webhookUrl s) b (apiKey s))).

Definition setApiKey (k : jsstring) : M W unit :=
  modify (with_ui (fun s => mkState (network s) (selectedSize s) (phone s)
                              (webhookUrl s) (loading s) k)).

Definition loadApiKey : M W unit :=
  try_catch
    (key <- getItem_api_key ;;
     match key with
     | Some k => if nonempty k then setApiKey k else ret tt
     | None => ret tt
     end)
    (fun error => console_error "Error loading API key:" error).

Definition handleNetworkChange (selectedNetwork : Network) : M W unit :=
  setNetwork selectedNetwork ;;
  match BUNDLE_SIZES selectedNetwork with
  | first :: _ => setSelectedSize first
  | [] => ret tt
  end.

Definition validateForm : M W bool :=
  s <- gets ui ;;
  if negb (nonempty (trim (apiKey s))) then
    Alert_alert "Error" (Text "Please set your API key in Settings first") ;;
    ret false
  else if negb (nonempty (trim (phone s))) then
    Alert_alert "Error" (Text "Please enter a phone number") ;;
    ret false
  else if negb (test_ten_digits (replace_whitespace (phone s))) then
    Alert_alert "Error" (Text "Please enter a valid 10-digit phone number") ;;
    ret false
  else if nonempty (webhookUrl s)
          && negb (startsWith (webhookUrl s) (lit "https://")) then
    Alert_alert "Error" (Text "Webhook URL must start with https://") ;;
    ret false
  else ret true.

(** [{ ...data, timestamp: new Date().toISOString() }] *)
Definition newTransaction (data : json) (now : Z) : json :=
  JObj (set_field (lit "timestamp") (JStr (toISOString now)) (spread data)).

Definition saveTransaction (data : json) : M W unit :=
  try_catch
    (transactions <- getItem_transactions ;;
     transactionList <-
       match transactions with
       | Some t => if text_truthy t then JSON_parse t else ret (JArr [])
       | None => ret (JArr [])
       end ;;
     now <- Date_now ;;
     items <- unshift transactionList (newTransaction data now) ;;
     (* Keep last 50 *)
     setItem_transactions (JSON_stringify (JArr (slice0 50 items))))
    (fun error => console_error "Error saving transaction:" error).

Definition API_URL : string :=
  "https://spfastit.com/wp-json/custom-api/v1/place-order".

(** [`TXN_${Date.now()}`] *)
Definition reference (now : Z) : jsstring := lit "TXN_" ++ Number_toString now.

(** The object literal [requestBody]. *)
Definition requestBody (s : State) (now : Z) : json :=
  JObj ([ (lit "api_key", JStr (apiKey s));
          (lit "phone", JStr (replace_whitespace (phone s)));
          (lit "size_mb", JNum (selectedSize s));
          (lit "network", JStr (toLowerCase (Network_name (network s))));
          (lit "reference", JStr (reference now)) ]
        ++ (if nonempty (webhookUrl s)
            then [ (lit "webhook_url", JStr (webhookUrl s)) ]
            else [])).

(** [fetch(API_URL, { method: 'POST', ..., body })]: the request leaves,
    time passes, and the promise settles. *)
Definition fetch (url : string) (body : json) (x : exchange)
  : M W (Z * option json) :=
  emit (Post url body) ;;
  modify (after (latency x)) ;;
  match answer x with
  | Unreachable => throw NetworkError
  | Response status body => ret (status, body)
  end.

(** [response.json()] *)
Definition response_json (response : Z * option json) : M W json :=
  match snd response with
  | Some data => ret data
  | None => throw SyntaxError
  end.

(** [v || otherwise], as the message of a dialog. *)
Definition or_else (v : value) (otherwise : message) : message :=
  match v with
  | Some j => if truthy v then Value j else otherwise
  | None => otherwise
  end.

(** [response.ok] *)
Definition response_ok (response : Z * option json) : bool :=
  (200 <=? fst response) && (fst response <=? 299).

Definition sendDataBundle (x : exchange) : M W unit :=
  valid <- validateForm ;;
  if negb valid then ret tt else
  setLoading true ;;
  try_finally
    (try_catch
       (s <- gets ui ;;
        now <- Date_now ;;
        response <- fetch API_URL (requestBody s now) x ;;
        data <- response_json response ;;
        success <-
          (if response_ok response
           then status <- prop data "status" ;;
                ret (is_string status (lit "success"))
           else ret false) ;;
        if success then
          (* Save transaction to history *)
          saveTransaction data ;;
          order_id <- prop data "order_id" ;;
          order_id <- interpolate order_id ;;
          balance <- prop data "wallet_balance_after" ;;
          balance <- interpolate balance ;;
          Alert_alert "Success!"
            (Template [ Chunk "Data bundle sent successfully!"; Newline;
                        Chunk "Order ID: "; order_id; Newline;
                        Chunk "Balance: "; balance;
                        Chunk " credits" ]) ;;
          (* Reset form *)
          setPhone [] ;;
          setWebhookUrl []
        else
          errorMessage <-
            match lookup (fst response) ERROR_MESSAGES with
            | Some fixed => ret (Text fixed)
            | None =>
                message <- prop data "message" ;;
                ret (or_else message (Text "Unknown error occurred"))
            end ;;
          Alert_alert "Error" errorMessage)
       (fun error =>
          Alert_alert "Error"
            (Text "Network error. Please check your connection and try again.")))
    (setLoading false).

End SendData.

(* ===================================================================== *)
(** * settings.tsx: the settings screen *)
(* ===================================================================== *)

Module Settings.
Import JS Eff Platform.
Local Open Scope eff_scope.

Record State : Type := mkState {
  apiKey : jsstring;
  tempApiKey : jsstring;
}.

Definition initial : State := mkState [] [].

Definition W : Type := World State.

Definition setApiKey (k : jsstring) : M W unit :=
  modify (with_ui (fun s => mkState k (tempApiKey s))).

(** Also the [onChangeText] of the input field. *)
Definition setTempApiKey (k : jsstring) : M W unit :=
  modify (with_ui (fun s => mkState (apiKey s) k)).

Definition loadApiKey : M W unit :=
  try_catch
    (key <- getItem_api_key ;;
     match key with
     | Some k =>
         if nonempty k then setApiKey k ;; setTempApiKey k else ret tt
     | None => ret tt
     end)
    (fun error => console_error "Error loading API key:" error).

Definition saveApiKey : M W unit :=
  s <- gets ui ;;
  if negb (nonempty (trim (tempApiKey s))) then
    Alert_alert "Error" (Text "Please enter an API key")
  else
    try_catch
      (console_log "tempApiKey" (tempApiKey s) ;;
       setItem_api_key (trim (tempApiKey s)) ;;
       setApiKey (trim (tempApiKey s)) ;;
       Alert_alert "Success" (Text "API key saved successfully"))
      (fun error => Alert_alert "Error" (Text "Failed to save API key")).

(** The button pressed in a confirmation dialog. *)
Inductive choice : Type := Cancel | Confirm.

Definition clearApiKey (pressed : choice) : M W unit :=
  Alert_alert "Clear API Key"
    (Text "Are you sure you want to remove your API key? You won't be able to send data bundles without it.") ;;
  match pressed with
  | Cancel => ret tt
  | Confirm =>
      try_catch
        (removeItem_api_key ;;
         setApiKey [] ;;
         setTempApiKey [] ;;
         Alert_alert "Success" (Text "API key cleared"))
        (fun error => Alert_alert "Error" (Text "Failed to clear API key"))
  end.

Definition clearAllData (pressed : choice) : M W unit :=
  Alert_alert "Clear All Data"
    (Text "This will remove your API key and transaction history. This action cannot be undone.") ;;
  match pressed with
  | Cancel => ret tt
  | Confirm =>
      try_catch
        (multiRemove_all ;;
         setApiKey [] ;;
         setTempApiKey [] ;;
         Alert_alert "Success" (Text "All data cleared"))
        (fun error => Alert_alert "Error" (Text "Failed to clear data"))
  end.

End Settings.

(* ===================================================================== *)
(** * The properties, in the words of the specification *)
(* ===================================================================== *)

(** The four rules of the form validator. *)
Module FormRules.
Import JS SendData.

(** Rule 1: the credential is not empty after trimming. *)
Definition credential_present (s : State) : Prop := trim (apiKey s) <> [].

(** Rule 2: the phone is not empty after trimming. *)
Definition phone_present (s : State) : Prop := trim (phone s) <> [].

(** Rule 3: the phone without its white space is exactly ten decimal
    digits. *)
Definition phone_ten_digits (s : State) : Prop :=
  List.length (replace_whitespace (phone s)) = 10%nat
  /\ Forall (fun c => isDigit c = true) (replace_whitespace (phone s)).

(** Rule 4: the webhook URL is empty or starts with [https://]. *)
Definition webhook_acceptable (s : State) : Prop :=
  webhookUrl s = [] \/ exists rest, webhookUrl s = lit "https://" ++ rest.

Definition acceptable (s : State) : Prop :=
  credential_present s /\ phone_present s /\ phone_ten_digits s
  /\ webhook_acceptable s.

(** A refusal with the message [m]: the answer is [false], and the error
    dialog is the only change. *)
Definition refused (m : string) (w : W)
  : Eff.completion bool * W :=
  (Eff.Normal false, Platform.logged (Platform.Alert "Error" (Platform.Text m)) w).

End FormRules.

(** The transaction log. *)
Module LogRules.
Import JS Eff Platform SendData.

(** The store accepts every operation. *)
Definition reliable {S : Type} (w : World S) : Prop :=
  forall op, rejects w op = false.

(** The cap of the log. *)
Definition cap : nat := 50.


(** The entries of the persisted log, newest first, when the stored value
    is a JSON sequence. *)
Definition entries (st : AsyncStorage) : option (list json) :=
  match transactions st with
  | Some (JsonText (JArr l)) => Some l
  | _ => None
  end.

(** A store whose log is the sequence [l]. *)
Definition with_log (l : list json) (st : AsyncStorage) : AsyncStorage :=
  mkStorage (api_key st) (Some (JsonText (JArr l))).



(** A sequence of entries as the log holds it once it is written: each
    entry as [JSON.stringify] writes it. *)
Definition stored (l : list json) : list json := map written l.

(** The sequence an append starts from: the stored sequence, and the empty
    one when the key is absent or holds the empty string. *)
Definition starting_sequence (st : AsyncStorage) : option (list json) :=
  match transactions st with
  | None => Some []
  | Some (NotJson []) => Some []
  | Some (JsonText (JArr l)) => Some l
  | _ => None
  end.



End LogRules.

(** The handling of the server's answer. *)
Module SubmissionRules.
Import JS Eff Platform SendData FormRules LogRules.

(** The HTTP status is in the success range. *)
Definition in_success_range (status : Z) : bool :=
  (200 <=? status) && (status <=? 299).

(** The status is in the success range and the [status] field of the
    decoded body equals ["success"]. *)
Definition succeeded (r : reply) : bool :=
  match r with
  | Response status (Some (JObj fs)) =>
      in_success_range status
      && is_string (field (lit "status") fs) (lit "success")
  | _ => false
  end.

Definition network_error : string :=
  "Network error. Please check your connection and try again.".

Definition unknown_error : string := "Unknown error occurred".

(** The [message] field of a decoded body, when it has one. *)
Definition message_field (data : json) : value :=
  match data with
  | JObj fs => field (lit "message") fs
  | _ => undefined
  end.

(** C4 and C8 as the specification has them: the fixed string of the
    table, otherwise the body's [message] field, and the generic string
    if that is absent. *)
Definition message_as_specified (status : Z) (data : json) : message :=
  match lookup status ERROR_MESSAGES with
  | Some fixed => Text fixed
  | None =>
      match message_field data with
      | Some v => Value v
      | None => Text unknown_error
      end
  end.

(** What the dialog shows in fact.  A body that does not decode gives the
    connectivity message; so does the body [null] when the status is not
    in the table; a [message] field that is falsy (the empty string,
    [null], [false], [0]) gives the generic string. *)
Definition message_shown (status : Z) (body : option json) : message :=
  match body with
  | None => Text network_error
  | Some data =>
      match lookup status ERROR_MESSAGES with
      | Some fixed => Text fixed
      | None =>
          match data with
          | JNull => Text network_error
          | _ => or_else (message_field data) (Text unknown_error)
          end
      end
  end.

(** The world once the request has left and the answer is there: the
    button shows the spinner, the request is in the trace, and the time of
    the round trip has passed. *)
Definition posted (x : exchange) (w : W) : W :=
  after (latency x)
    (logged (Post API_URL (requestBody (ui w) (clock w)))
       (snd (setLoading true w))).

(** The end of a submission that failed with the dialog [m]: nothing else
    has changed. *)
Definition failed (m : message) (x : exchange) (w : W) : W :=
  snd (setLoading false (logged (Alert "Error" m) (posted x w))).

(** The two values of the success dialog can be rendered as text. *)
Definition dialog_renders (data : json) : bool :=
  match field (lit "order_id") (spread data) with
  | Some v => negb (ToString_throws v)
  | None => true
  end
  && match field (lit "wallet_balance_after") (spread data) with
     | Some v => negb (ToString_throws v)
     | None => true
     end.

Definition success_dialog (data : json) : event :=
  Alert "Success!"
    (Template [ Chunk "Data bundle sent successfully!"; Newline;
                Chunk "Order ID: ";
                Interpolated (field (lit "order_id") (spread data)); Newline;
                Chunk "Balance: ";
                Interpolated (field (lit "wallet_balance_after")
                                (spread data));
                Chunk " credits" ]).

(** The end of a submission treated as a success: [saveTransaction] has
    run once, the dialog is shown, phone and webhook are emptied. *)
Definition completed (data : json) (x : exchange) (w : W) : W :=
  snd (setLoading false
         (snd (setWebhookUrl []
                 (snd (setPhone []
                         (logged (success_dialog data)
                            (snd (saveTransaction data (posted x w))))))))).

(** The end of a submission whose answer is a success but whose dialog
    cannot be rendered: [saveTransaction] has run once, then the
    connectivity error is shown and the form is kept. *)
Definition unreported (data : json) (x : exchange) (w : W) : W :=
  snd (setLoading false
         (logged (Alert "Error" (Text network_error))
            (snd (saveTransaction data (posted x w))))).

(** The end of a submission whose answer is a success. *)
Definition accepted (data : json) (x : exchange) (w : W) : W :=
  if dialog_renders data then completed data x w else unreported data x w.

(** The bodies of the requests sent so far, oldest first. *)
Fixpoint posts (events : list event) : list json :=
  match events with
  | [] => []
  | Post _ body :: rest => body :: posts rest
  | _ :: rest => posts rest
  end.

(** The field [name] of a request body. *)
Definition member (name : string) (body : json) : value :=
  match body with
  | JObj fs => field (lit name) fs
  | _ => undefined
  end.

(** The [reference] of a request body. *)
Definition reference_of (body : json) : value := member "reference" body.

(** The dialog shown last. *)
Fixpoint last_dialog (events : list event) : option (string * message) :=
  match events with
  | [] => None
  | e :: rest =>
      match last_dialog rest with
      | Some d => Some d
      | None =>
          match e with
          | Alert title body => Some (title, body)
          | _ => None
          end
      end
  end.

(** C4 as the specification has it: whenever an answer with a decoded
    body is not a success, the dialog shows [message_as_specified]. *)
Definition error_is_reported_as_specified : Prop :=
  forall (x : exchange) (w : W) (status : Z) (data : json),
    acceptable (ui w) ->
    answer x = Response status (Some data) ->
    succeeded (answer x) = false ->
    last_dialog (trace (snd (sendDataBundle x w)))
    = Some ("Error", message_as_specified status data).

(** C8 as the specification has it: a status in the success range with a
    body that does not say ["success"] is an error; the log and the form
    are untouched, and the dialog shows the body's [message] field, or the
    generic string if it is absent. *)
Definition soft_failure_is_reported_as_specified : Prop :=
  forall (x : exchange) (w : W) (status : Z) (data : json),
    acceptable (ui w) ->
    answer x = Response status (Some data) ->
    in_success_range status = true ->
    succeeded (answer x) = false ->
    let w' := snd (sendDataBundle x w) in
    storage w' = storage w
    /\ phone (ui w') = phone (ui w)
    /\ webhookUrl (ui w') = webhookUrl (ui w)
    /\ last_dialog (trace w')
       = Some ("Error",
               match message_field data with
               | Some v => Value v
               | None => Text unknown_error
               end).


(** Two submissions in a row: the first with the exchange [x1]; then
    [gap] milliseconds pass while the user edits the form; then the second
    with [x2]. *)
Definition second_start (x1 : exchange) (gap : N) (edit : State -> State)
    (w : W) : W :=
  with_ui edit (after gap (snd (sendDataBundle x1 w))).

(** C7 as the specification has it: the references of two submissions
    differ. *)
Definition references_always_differ : Prop :=
  forall (w : W) (x1 x2 : exchange) (gap : N) (edit : State -> State)
         (b1 b2 : json),
    acceptable (ui w) ->
    acceptable (ui (second_start x1 gap edit w)) ->
    posts (trace (snd (sendDataBundle x2 (second_start x1 gap edit w))))
    = posts (trace w) ++ [b1; b2] ->
    reference_of b1 <> reference_of b2.

End SubmissionRules.

(** The credential manager. *)
Module CredentialRules.
Import JS Eff Platform Settings.

(** [save(value)]: the user types [value] in the input field and presses
    Save. *)
Definition save (value : jsstring) : M W unit :=
  bind (setTempApiKey value) (fun _ => saveApiKey).

(** [load()]: the screen is opened anew; the component starts from its
    initial state and loads the key.  What it returns is the [apiKey] of
    the component afterwards. *)
Definition load : M W unit :=
  bind (modify (with_ui (fun _ => initial))) (fun _ => loadApiKey).

Definition loaded (w : W) : jsstring := apiKey (ui (snd (load w))).

(** C9 as the specification has it: a value that is blank is refused and
    the stored credential stays; every other value overwrites the stored
    one, and the next [load()] returns it. *)
Definition saved_value_is_loaded : Prop :=
  forall (value : jsstring) (w : W),
    let w' := snd (save value w) in
    (JS.trim value = [] ->
     api_key (storage w') = api_key (storage w))
    /\ (JS.trim value <> [] ->
        api_key (storage w') = Some value /\ loaded w' = value).

End CredentialRules.

(** Sample data for the examples. *)
Module Samples.
Import JS Eff Platform SendData.

(** A body the server answers an accepted order with. *)
Definition order : json :=
  JObj [ (lit "status", JStr (lit "success"));
         (lit "message", JStr (lit "Order placed"));
         (lit "order_id", JNum 42);
         (lit "wallet_balance_after", JNum 12.5) ].

(** A device with a reliable store holding [st], on 2023-11-14. *)
Definition device (s : State) (st : AsyncStorage) : W :=
  mkWorld s st (fun _ => false) 1700000000000 [].

(** A form with the given inputs, on a device with an empty store. *)
Definition form (key phone webhook : string) : W :=
  mkWorld (mkState MTN 1024 (lit phone) (lit webhook) false (lit key))
          (mkStorage None None) (fun _ => false) 0 [].

(** A filled form that passes validation. *)
Definition filled : State :=
  mkState Telecel 5000 (lit "054 348 2280") [] false (lit "key-123").


(** The server is not reached, and [fetch] rejects at once. *)
Definition offline : exchange := mkExchange 0 Unreachable.

(** An answer that arrives after 120 ms. *)
Definition answered (status : Z) (body : option json) : exchange :=
  mkExchange 120 (Response status body).


(** [{"status": "error", "message": ""}] *)
Definition empty_message : json :=
  JObj [ (lit "status", JStr (lit "error")); (lit "message", JStr []) ].

(** The form [filled], on a device whose store is empty. *)
Definition ready : W := device filled (mkStorage (Some (lit "key-123")) None).



(** The settings screen on a device that holds the key [old-key] and
    whose store has no room left: it rejects every write. *)
Definition settings_on_full_store : Settings.W :=
  mkWorld Settings.initial (mkStorage (Some (lit "old-key")) None)
    (fun op => match op with SetItem _ => true | _ => false end)
    1700000000000 [].

(** The settings screen with the key [old-key] loaded, on a device whose
    store fails on [multiRemove] after it has removed the key. *)
Definition settings_on_failing_removal : Settings.W :=
  mkWorld (Settings.mkState (lit "old-key") (lit "old-key"))
    (mkStorage (Some (lit "old-key")) (Some (JsonText (JArr [order]))))
    (fun op => match op with
               | MultiRemove _ => true
               | RemoveOf _ "transactions" => true
               | _ => false
               end)
    1700000000000 [].

(** The settings screen, just opened, on a reliable device that holds the
    key [old-key] and a log of one entry. *)
Definition settings : Settings.W :=
  mkWorld Settings.initial
    (mkStorage (Some (lit "old-key")) (Some (JsonText (JArr [order]))))
    (fun _ => false) 1700000000000 [].

End Samples.

(* ===================================================================== *)
(** * The history screen (the second component of index.tsx) *)
(* ===================================================================== *)

Module History.
Import JS Eff Platform.
Local Open Scope eff_scope.

(** The component's state.  [transactions] is typed [Transaction[]] in the
    source, but it receives whatever [JSON.parse] returns. *)
Record State : Type := mkState {
  transactions : json;
  refreshing : bool;
}.

Definition initial : State := mkState (JArr []) false.

Definition W : Type := World State.

Definition setTransactions (v : json) : M W unit :=
  modify (with_ui (fun s => mkState v (refreshing s))).

Definition setRefreshing (b : bool) : M W unit :=
  modify (with_ui (fun s => mkState (transactions s) b)).

(** [AsyncStorage.removeItem('transactions')] *)
Definition removeItem_transactions : M W unit :=
  storage_call (RemoveItem "transactions")
    (fun st => (tt, mkStorage (api_key st) None)).

Definition loadTransactions : M W unit :=
  try_catch
    (savedTransactions <- getItem_transactions ;;
     match savedTransactions with
     | Some t =>
         if text_truthy t
         then parsed <- JSON_parse t ;; setTransactions parsed
         else ret tt
     | None => ret tt
     end)
    (fun error => console_error "Error loading transactions:" error).

Definition onRefresh : M W unit :=
  setRefreshing true ;;
  loadTransactions ;;
  setRefreshing false.

Definition clearHistory : M W unit :=
  try_catch
    (removeItem_transactions ;;
     setTransactions (JArr []))
    (fun error => console_error "Error clearing history:" error).

(** The four colours of the status line. *)
Definition amber : string := "#f59e0b".
Definition green : string := "#10b981".
Definition red : string := "#ef4444".
Definition grey : string := "#6b7280".

(** [switch (status)]: the cases compare with [===]. *)
Definition getStatusColor (status : value) : string :=
  if is_string status (lit "initiated") then amber
  else if is_string status (lit "completed") then green
  else if is_string status (lit "failed") then red
  else grey.

(** The icon of [getStatusIcon]: its component and its [color]. *)
Inductive icon : Type := Clock | CheckCircle | AlertCircle | RefreshCw.

Definition getStatusIcon (status : value) : icon * string :=
  if is_string status (lit "initiated") then (Clock, amber)
  else if is_string status (lit "completed") then (CheckCircle, green)
  else if is_string status (lit "failed") then (AlertCircle, red)
  else (RefreshCw, grey).

(** The component's state once it is mounted: it starts from the initial
    state, and the effect loads the log.  What the component draws from
    its state is not part of the model. *)
Definition mount {S : Type} (d : World S) : W :=
  snd (loadTransactions
         (mkWorld initial (storage d) (rejects d) (clock d) (trace d))).

End History.

(* ===================================================================== *)
(** * The handlers as the screens wire them *)
(* ===================================================================== *)

(** The send screen: what its JSX lets the user do. *)
Module SendActions.
Import JS Eff Platform SendData.
Local Open Scope eff_scope.

Inductive action : Type :=
| PressNetwork (n : Network)   (* onPress={() => handleNetworkChange(n)} *)
| PressSize (i : nat)          (* the i-th button of BUNDLE_SIZES[network] *)
| TypePhone (s : jsstring)     (* onChangeText={setPhone} *)
| TypeWebhook (s : jsstring)   (* onChangeText={setWebhookUrl} *)
| PressSend (x : exchange)     (* onPress={sendDataBundle}, disabled={loading} *)
| Wait (elapsed : N).          (* nothing is pressed for a while *)

(** The bundle row shows one button for each size of the selected
    network; the send button does nothing while [loading]. *)
Definition perform (a : action) : M W unit :=
  match a with
  | PressNetwork n => handleNetworkChange n
  | PressSize i =>
      s <- gets ui ;;
      match nth_error (BUNDLE_SIZES (network s)) i with
      | Some size => setSelectedSize size
      | None => ret tt
      end
  | TypePhone p => setPhone p
  | TypeWebhook u => setWebhookUrl u
  | PressSend x =>
      s <- gets ui ;;
      if loading s then ret tt else sendDataBundle x
  | Wait elapsed => modify (after elapsed)
  end.

Fixpoint perform_all (actions : list action) (w : W) : W :=
  match actions with
  | [] => w
  | a :: rest => perform_all rest (snd (perform a w))
  end.

(** The component is mounted: its state is the initial one, and the effect
    loads the API key. *)
Definition mount {S : Type} (d : World S) : W :=
  snd (loadApiKey
         (mkWorld initial (storage d) (rejects d) (clock d) (trace d))).

(** The same device with [k] under the key ['api_key'] of the store. *)
Definition rekey (k : option jsstring) (w : W) : W :=
  with_storage (fun st => mkStorage k (transactions st)) w.

(** The same form with [p] in the phone field. *)
Definition with_phone (p : jsstring) (w : W) : W := snd (setPhone p w).

(** The selected size is one of the sizes of the selected network. *)
Definition size_offered (s : State) : Prop :=
  In (selectedSize s) (BUNDLE_SIZES (network s)).

(** An order request as the server expects it: a credential that is not
    blank, a phone of ten digits, a size of the named network, a reference,
    and a webhook URL only with the [https://] prefix. *)
Definition order_request (body : json) : Prop :=
  exists (key phone : jsstring) (size : float) (n : Network) (t : Z)
         (hook : list (jsstring * json)),
    body = JObj ([ (lit "api_key", JStr key);
                   (lit "phone", JStr phone);
                   (lit "size_mb", JNum size);
                   (lit "network",
                    JStr (lit match n with
                              | MTN => "mtn"
                              | Telecel => "telecel"
                              end));
                   (lit "reference",
                    JStr (lit "TXN_" ++ Number_toString t)) ] ++ hook)
    /\ trim key <> []
    /\ List.length phone = 10%nat
    /\ Forall (fun c => isDigit c = true) phone
    /\ In size (BUNDLE_SIZES n)
    /\ (hook = []
        \/ exists rest,
             hook = [ (lit "webhook_url", JStr (lit "https://" ++ rest)) ]).

End SendActions.

(** The settings screen. *)
Module SettingsActions.
Import JS Eff Platform Settings.
Local Open Scope eff_scope.

Inductive action : Type :=
| TypeKey (s : jsstring)          (* onChangeText={setTempApiKey} *)
| PressSave                       (* onPress={saveApiKey} *)
| PressClear (pressed : choice)   (* onPress={clearApiKey}, shown if apiKey *)
| PressClearAll (pressed : choice).   (* onPress={clearAllData} *)

(** The clear button is rendered only when [apiKey] is truthy. *)
Definition perform (a : action) : M W unit :=
  match a with
  | TypeKey k => setTempApiKey k
  | PressSave => saveApiKey
  | PressClear pressed =>
      s <- gets ui ;;
      if nonempty (apiKey s) then clearApiKey pressed else ret tt
  | PressClearAll pressed => clearAllData pressed
  end.

Fixpoint perform_all (actions : list action) (w : W) : W :=
  match actions with
  | [] => w
  | a :: rest => perform_all rest (snd (perform a w))
  end.

Definition mount {S : Type} (d : World S) : W :=
  snd (loadApiKey
         (mkWorld initial (storage d) (rejects d) (clock d) (trace d))).

(** The key the store holds, the empty string when there is none. *)
Definition stored_key (st : AsyncStorage) : jsstring :=
  match api_key st with
  | Some k => k
  | None => []
  end.

(** A stored credential is not empty and has no white space around it. *)
Definition tidy (st : AsyncStorage) : Prop :=
  match api_key st with
  | Some k => k <> [] /\ trim k = k
  | None => True
  end.

(** A [multiRemove] that rejects has not removed the key. *)
Definition removal_spares_key (w : W) : Prop :=
  rejects w (MultiRemove ["api_key"; "transactions"]) = false
  \/ rejects w (RemoveOf ["api_key"; "transactions"] "api_key") = true.

End SettingsActions.

(** The log as the history screen can read it. *)
Module HistoryRules.
Import JS Eff Platform.

(** The value [JSON.parse] decodes from the stored log, when the store
    lets it be read and it holds a JSON text. *)
Definition decoded_log {S : Type} (w : World S) : option json :=
  if rejects w (GetItem "transactions") then None
  else match transactions (storage w) with
       | Some (JsonText v) => Some v
       | _ => None
       end.

(** The dialogs shown so far, oldest first. *)
Fixpoint dialogs (events : list event) : list (string * message) :=
  match events with
  | [] => []
  | Alert title body :: rest => (title, body) :: dialogs rest
  | _ :: rest => dialogs rest
  end.

End HistoryRules.

(* ===================================================================== *)
(** * Facts about the string operations *)
(* ===================================================================== *)

Module StringFacts.
Import JS.

Lemma nonempty_false (s : jsstring) : nonempty s = false <-> s = [].
Proof. destruct s; simpl; split; congruence. Qed.

Lemma nonempty_true (s : jsstring) : nonempty s = true <-> s <> [].
Proof. destruct s; simpl; split; congruence. Qed.

(** What [trimStart] leaves is empty or starts with a code unit that is
    not white space. *)
Lemma trimStart_head (s : jsstring) :
  trimStart s = [] \/
  exists c r, trimStart s = c :: r /\ isWhiteSpace c = false.
Proof.
  induction s as [|c r IH]; simpl.
  - now left.
  - destruct (isWhiteSpace c) eqn:E; [exact IH|].
    right. now exists c, r.
Qed.

Lemma trimStart_nil (s : jsstring) :
  trimStart s = [] <-> forallb isWhiteSpace s = true.
Proof.
  induction s as [|c r IH]; simpl.
  - tauto.
  - destruct (isWhiteSpace c); simpl; [exact IH|].
    split; discriminate.
Qed.

Lemma forallb_rev {A} (f : A -> bool) (l : list A) :
  forallb f (rev l) = forallb f l.
Proof.
  induction l as [|a l IH]; simpl; [reflexivity|].
  rewrite forallb_app, IH. simpl.
  rewrite andb_true_r. apply andb_comm.
Qed.

(** Nothing is left by [trim] exactly when every code unit is white
    space. *)
Lemma trim_nil (s : jsstring) :
  trim s = [] <-> forallb isWhiteSpace s = true.
Proof.
  unfold trim, trimEnd.
  rewrite <- trimStart_nil.
  split.
  - intros H.
    apply (f_equal (@rev N)) in H. rewrite rev_involutive in H. simpl in H.
    apply trimStart_nil in H. rewrite forallb_rev in H.
    destruct (trimStart_head s) as [E | (c & r & E & Hc)]; [exact E|].
    rewrite E in H. simpl in H. rewrite Hc in H. discriminate.
  - intros H. rewrite H. reflexivity.
Qed.

(** A trimmed string is not empty exactly when the string holds a code
    unit that is not white space. *)
Lemma trim_nonempty (s : jsstring) :
  trim s <> [] <-> exists c, In c s /\ isWhiteSpace c = false.
Proof.
  rewrite trim_nil. split.
  - intros H.
    induction s as [|c r IH]; simpl in *; [congruence|].
    destruct (isWhiteSpace c) eqn:E.
    + destruct (IH H) as (d & Hd & Hw). exists d. auto.
    + exists c. auto.
  - intros (c & Hin & Hc) H.
    rewrite forallb_forall in H. rewrite (H c Hin) in Hc. discriminate.
Qed.

Lemma match_digits_spec (n : nat) (s r : jsstring) :
  match_digits n s = Some r <->
  exists d, s = d ++ r /\ List.length d = n /\ Forall (fun c => isDigit c = true) d.
Proof.
  revert s. induction n as [|n IH]; intros s; simpl.
  - split.
    + intros [= ->]. exists []. repeat split. constructor.
    + intros (d & -> & Hlen & _).
      apply length_zero_iff_nil in Hlen. now subst.
  - destruct s as [|c s'].
    + split; [discriminate|].
      intros (d & Hs & Hlen & _).
      destruct d; simpl in *; discriminate.
    + destruct (isDigit c) eqn:E.
      * rewrite IH. split.
        -- intros (d & -> & Hlen & Hd).
           exists (c :: d). simpl. repeat split; auto.
        -- intros (d & Hs & Hlen & Hd).
           destruct d as [|c' d]; simpl in *; [discriminate|].
           injection Hs as -> ->. injection Hlen as Hlen.
           inversion Hd; subst. now exists d.
      * split; [discriminate|].
        intros (d & Hs & Hlen & Hd).
        destruct d as [|c' d]; simpl in *; [discriminate|].
        injection Hs as -> ->.
        inversion Hd; subst. congruence.
Qed.

(** [/^\d{10}$/] accepts exactly the strings of ten digits. *)
Lemma test_ten_digits_spec (s : jsstring) :
  test_ten_digits s = true <->
  List.length s = 10%nat /\ Forall (fun c => isDigit c = true) s.
Proof.
  unfold test_ten_digits.
  destruct (match_digits 10 s) as [r|] eqn:E.
  - apply match_digits_spec in E. destruct E as (d & -> & Hlen & Hd).
    destruct r as [|c r].
    + rewrite app_nil_r. tauto.
    + split; [discriminate|].
      intros [Hl _]. rewrite length_app in Hl. simpl in Hl. lia.
  - split; [discriminate|].
    intros [Hl Hd].
    assert (H : match_digits 10 s = Some []).
    { apply match_digits_spec. exists s. now rewrite app_nil_r. }
    congruence.
Qed.

Lemma startsWith_spec (s p : jsstring) :
  startsWith s p = true <-> exists rest, s = p ++ rest.
Proof.
  revert s. induction p as [|a p IH]; intros s; simpl.
  - split; [intros _; now exists s | intros _; reflexivity].
  - destruct s as [|b s'].
    + split; [discriminate | intros (r & H); discriminate].
    + rewrite andb_true_iff, N.eqb_eq, IH. split.
      * intros [-> (r & ->)]. now exists r.
      * intros (r & H). injection H as -> ->. split; [reflexivity|now exists r].
Qed.

Lemma jsstring_eqb_eq (a b : jsstring) : jsstring_eqb a b = true <-> a = b.
Proof.
  unfold jsstring_eqb. destruct (list_eq_dec N.eq_dec a b); split; congruence.
Qed.

Lemma jsstring_eqb_refl (a : jsstring) : jsstring_eqb a a = true.
Proof. now apply jsstring_eqb_eq. Qed.

(** A property that has just been assigned holds the assigned value. *)
Lemma field_set_field (k : jsstring) (v : json)
    (fs : list (jsstring * json)) :
  field k (set_field k v fs) = Some v.
Proof.
  induction fs as [|[k' v'] r IH]; simpl.
  - now rewrite jsstring_eqb_refl.
  - destruct (jsstring_eqb k' k) eqn:E; simpl; rewrite E; [reflexivity|].
    exact IH.
Qed.

End StringFacts.

(* ===================================================================== *)
(** * The form validator *)
(* ===================================================================== *)

Module Validation.
Import JS Eff Platform SendData FormRules StringFacts.

Lemma credential_present_dec (s : State) :
  nonempty (trim (apiKey s)) = true <-> credential_present s.
Proof. apply nonempty_true. Qed.

Lemma phone_present_dec (s : State) :
  nonempty (trim (phone s)) = true <-> phone_present s.
Proof. apply nonempty_true. Qed.

Lemma phone_ten_digits_dec (s : State) :
  test_ten_digits (replace_whitespace (phone s)) = true <-> phone_ten_digits s.
Proof. apply test_ten_digits_spec. Qed.

Lemma webhook_acceptable_dec (s : State) :
  nonempty (webhookUrl s) && negb (startsWith (webhookUrl s) (lit "https://"))
  = false <-> webhook_acceptable s.
Proof.
  unfold webhook_acceptable.
  rewrite andb_false_iff, nonempty_false, negb_false_iff, startsWith_spec.
  tauto.
Qed.

(** The run of the validator, rule by rule. *)
Lemma validateForm_cases (w : W) :
  let s := ui w in
  (~ credential_present s /\
   validateForm w = refused "Please set your API key in Settings first" w)
  \/ (credential_present s /\ ~ phone_present s /\
      validateForm w = refused "Please enter a phone number" w)
  \/ (credential_present s /\ phone_present s /\ ~ phone_ten_digits s /\
      validateForm w
      = refused "Please enter a valid 10-digit phone number" w)
  \/ (credential_present s /\ phone_present s /\ phone_ten_digits s /\
      ~ webhook_acceptable s /\
      validateForm w = refused "Webhook URL must start with https://" w)
  \/ (acceptable s /\ validateForm w = (Normal true, w)).
Proof.
  intros s. unfold validateForm, refused, bind, gets, Alert_alert, emit,
    modify, ret. fold s.
  destruct (nonempty (trim (apiKey s))) eqn:H1; cbn [negb].
  2:{ left. split; [|reflexivity].
      rewrite <- credential_present_dec. congruence. }
  apply credential_present_dec in H1.
  destruct (nonempty (trim (phone s))) eqn:H2; cbn [negb].
  2:{ right; left. split; [exact H1|]. split; [|reflexivity].
      rewrite <- phone_present_dec. congruence. }
  apply phone_present_dec in H2.
  destruct (test_ten_digits (replace_whitespace (phone s))) eqn:H3; cbn [negb].
  2:{ right; right; left. split; [exact H1|]. split; [exact H2|].
      split; [|reflexivity].
      rewrite <- phone_ten_digits_dec. congruence. }
  apply phone_ten_digits_dec in H3.
  destruct (nonempty (webhookUrl s)
            && negb (startsWith (webhookUrl s) (lit "https://"))) eqn:H4.
  - right; right; right; left. split; [exact H1|]. split; [exact H2|].
    split; [exact H3|]. split; [|reflexivity].
    rewrite <- webhook_acceptable_dec. congruence.
  - apply webhook_acceptable_dec in H4.
    right; right; right; right. unfold acceptable. auto.
Qed.

Lemma validateForm_accepted (w : W) :
  acceptable (ui w) -> validateForm w = (Normal true, w).
Proof.
  intros (A1 & A2 & A3 & A4).
  destruct (validateForm_cases w)
    as [(N & _) | [(_ & N & _) | [(_ & _ & N & _) | [(_ & _ & _ & N & _)
       | (_ & E)]]]]; try contradiction.
  exact E.
Qed.

Lemma validateForm_sound (w : W) :
  fst (validateForm w) = Normal true -> acceptable (ui w).
Proof.
  intros H.
  destruct (validateForm_cases w)
    as [(_ & E) | [(_ & _ & E) | [(_ & _ & _ & E) | [(_ & _ & _ & _ & E)
       | (A & _)]]]]; try exact A; rewrite E in H; discriminate H.
Qed.

Lemma validateForm_refused (w : W) :
  ~ acceptable (ui w) ->
  exists m, validateForm w = refused m w.
Proof.
  intros NA.
  destruct (validateForm_cases w)
    as [(_ & E) | [(_ & _ & E) | [(_ & _ & _ & E) | [(_ & _ & _ & _ & E)
       | (A & _)]]]]; try contradiction; eauto.
Qed.

(** C1.  The validator accepts exactly when the four rules hold: the
    credential is not empty after trimming, the phone is not empty after
    trimming, the phone without white space is ten decimal digits, and the
    webhook URL is empty or starts with [https://].  The rules are checked
    in this order, and the dialog shown is the one of the first rule that
    fails; when all hold nothing is shown. *)
Theorem validateForm_first_failing_rule (w : W) :
  let s := ui w in
  (fst (validateForm w) = Normal true <-> acceptable s)
  /\ (acceptable s -> validateForm w = (Normal true, w))
  /\ (~ credential_present s ->
      validateForm w = refused "Please set your API key in Settings first" w)
  /\ (credential_present s -> ~ phone_present s ->
      validateForm w = refused "Please enter a phone number" w)
  /\ (credential_present s -> phone_present s -> ~ phone_ten_digits s ->
      validateForm w
      = refused "Please enter a valid 10-digit phone number" w)
  /\ (credential_present s -> phone_present s -> phone_ten_digits s ->
      ~ webhook_acceptable s ->
      validateForm w = refused "Webhook URL must start with https://" w).
Proof.
  intros s.
  pose proof (validateForm_cases w) as C. fold s in C.
  unfold acceptable in *.
  destruct C as [(N1 & E) | [(A1 & N2 & E) | [(A1 & A2 & N3 & E)
    | [(A1 & A2 & A3 & N4 & E) | ((A1 & A2 & A3 & A4) & E)]]]];
    rewrite E; unfold refused; simpl;
    (split; [split; [try discriminate; tauto | tauto] |]);
    repeat split; intros; try reflexivity; tauto.
Qed.

(** The examples of the specification. *)
Example phone_with_spaces_accepted :
  fst (validateForm (Samples.form "key" "054 348 2280" "")) = Normal true.
Proof. reflexivity. Qed.

Example phone_five_digits_refused :
  validateForm (Samples.form "key" "12345" "")
  = refused "Please enter a valid 10-digit phone number"
      (Samples.form "key" "12345" "").
Proof. reflexivity. Qed.

Example phone_eleven_digits_refused :
  validateForm (Samples.form "key" "05434822801" "")
  = refused "Please enter a valid 10-digit phone number"
      (Samples.form "key" "05434822801" "").
Proof. reflexivity. Qed.

Example webhook_http_refused :
  validateForm (Samples.form "key" "0543482280" "http://x.com")
  = refused "Webhook URL must start with https://"
      (Samples.form "key" "0543482280" "http://x.com").
Proof. reflexivity. Qed.

Example webhook_https_accepted :
  fst (validateForm (Samples.form "key" "0543482280" "https://x.com")) = Normal true.
Proof. reflexivity. Qed.

Example credential_checked_first :
  validateForm (Samples.form "  " "" "ftp://x")
  = refused "Please set your API key in Settings first"
      (Samples.form "  " "" "ftp://x").
Proof. reflexivity. Qed.

End Validation.

(* ===================================================================== *)
(** * The transaction log *)
(* ===================================================================== *)

Module Log.
Import JS Eff Platform SendData LogRules.







(** Writing changes no key and no string. *)
Lemma field_written (k : jsstring) (fs : list (jsstring * json)) :
  field k (map (fun kv => (fst kv, written (snd kv))) fs)
  = option_map written (field k fs).
Proof.
  induction fs as [|[k' v] r IH]; [reflexivity|].
  cbn [map field fst snd]. now destruct (jsstring_eqb k' k).
Qed.

(** [saveTransaction] never throws. *)
Lemma saveTransaction_normal (data : json) (w : W) :
  fst (saveTransaction data w) = Normal tt.
Proof.
  unfold saveTransaction, try_catch, bind, getItem_transactions,
    setItem_transactions, storage_call, Date_now, gets, console_error, emit,
    modify.
  destruct (rejects w (GetItem "transactions")); [reflexivity|].
  destruct (transactions (storage w)) as [[[|c s]|[]]|]; simpl;
    try reflexivity;
    destruct (rejects w (SetItem "transactions")); reflexivity.
Qed.

(** It leaves the component, the clock and the failure mode alone. *)
Lemma saveTransaction_frame (data : json) (w : W) :
  let w' := snd (saveTransaction data w) in
  ui w' = ui w /\ clock w' = clock w /\ rejects w' = rejects w
  /\ api_key (storage w') = api_key (storage w).
Proof.
  unfold saveTransaction, try_catch, bind, getItem_transactions,
    setItem_transactions, storage_call, Date_now, gets, console_error, emit,
    modify.
  destruct (rejects w (GetItem "transactions")); [simpl; auto|].
  destruct (transactions (storage w)) as [[[|c s]|[]]|]; simpl; auto;
    destruct (rejects w (SetItem "transactions")); simpl; auto.
Qed.

(** On an absent key or an empty string the log starts empty. *)
Lemma saveTransaction_fresh (data : json) (w : W) :
  reliable w ->
  transactions (storage w) = None
  \/ transactions (storage w) = Some (NotJson []) ->
  saveTransaction data w
  = (Normal tt,
     with_storage (fun _ => with_log (stored [newTransaction data (clock w)])
                              (storage w)) w).
Proof.
  intros R H.
  unfold saveTransaction, try_catch, bind, getItem_transactions,
    setItem_transactions, storage_call, Date_now, gets.
  rewrite (R (GetItem "transactions")).
  destruct H as [-> | ->]; simpl; unfold with_storage; simpl;
    rewrite (R (SetItem "transactions")); reflexivity.
Qed.

(** On a stored sequence the entry is put in front, and fifty are kept. *)
Lemma saveTransaction_prepends (data : json) (w : W) (old : list json) :
  reliable w ->
  entries (storage w) = Some old ->
  saveTransaction data w
  = (Normal tt,
     with_storage
       (fun _ => with_log
                   (stored (firstn cap (newTransaction data (clock w) :: old)))
                   (storage w)) w).
Proof.
  intros R H.
  unfold entries in H.
  unfold saveTransaction, try_catch, bind, getItem_transactions,
    setItem_transactions, storage_call, Date_now, gets.
  rewrite (R (GetItem "transactions")).
  destruct (transactions (storage w)) as [[s|[]]|]; try discriminate.
  injection H as ->. simpl. unfold with_storage. simpl.
  rewrite (R (SetItem "transactions")). reflexivity.
Qed.



(** The entry carries the time of the append, in ISO 8601. *)
Lemma newTransaction_timestamp (data : json) (now : Z) :
  SubmissionRules.member "timestamp" (newTransaction data now)
  = Some (JStr (toISOString now)).
Proof. apply StringFacts.field_set_field. Qed.



Lemma reliable_saveTransaction (data : json) (w : W) :
  reliable w -> reliable (snd (saveTransaction data w)).
Proof.
  intros R op.
  destruct (saveTransaction_frame data w) as (_ & _ & E & _).
  simpl in E. rewrite E. apply R.
Qed.


(** One append from a value it can start from. *)
Lemma saveTransaction_from_start (data : json) (w : W) (old : list json) :
  reliable w ->
  starting_sequence (storage w) = Some old ->
  saveTransaction data w
  = (Normal tt,
     with_storage
       (fun _ => with_log
                   (stored (firstn cap (newTransaction data (clock w) :: old)))
                   (storage w)) w).
Proof.
  intros R H. unfold starting_sequence in H.
  destruct (transactions (storage w)) as [[[|c s]|[]]|] eqn:T;
    try discriminate; injection H as <-.
  - apply (saveTransaction_fresh data w R). now right.
  - apply (saveTransaction_prepends data w _ R).
    unfold entries. now rewrite T.
  - apply (saveTransaction_fresh data w R). now left.
Qed.










End Log.

(* ===================================================================== *)
(** * The submission *)
(* ===================================================================== *)

Module Submission.
Import JS Eff Platform SendData FormRules LogRules SubmissionRules.
Import StringFacts Validation Log.

Lemma saveTransaction_eq (data : json) (w : W) :
  saveTransaction data w = (Normal tt, snd (saveTransaction data w)).
Proof.
  pose proof (saveTransaction_normal data w) as H.
  destruct (saveTransaction data w) as [c w']. simpl in *. now subst.
Qed.

(** One step of symbolic execution: the monad's operations and the
    setters are unfolded, the calls of [saveTransaction] and the table
    lookups are kept. *)
Ltac run :=
  cbv beta iota zeta delta
    [bind try_finally try_catch ret throw gets modify emit
     setLoading setPhone setWebhookUrl fetch response_json response_ok prop
     Date_now Alert_alert fst snd].

(** The run of [sendDataBundle] on a form that passes validation. *)
Lemma sendDataBundle_run (x : exchange) (w : W) :
  acceptable (ui w) ->
  sendDataBundle x w
  = (Normal tt,
     match answer x with
     | Unreachable => failed (Text network_error) x w
     | Response status body =>
         if succeeded (answer x)
         then match body with
              | Some data => accepted data x w
              | None => w
              end
         else failed (message_shown status body) x w
     end).
Proof.
  intros A.
  unfold sendDataBundle, bind at 1.
  rewrite (validateForm_accepted w A). cbn [negb].
  unfold failed, accepted, completed, unreported, dialog_renders, posted,
    message_shown, succeeded, in_success_range, success_dialog.
  run.
  destruct (answer x) as [|status [data|]]; run; try reflexivity.
  destruct ((200 <=? status) && (status <=? 299)) eqn:OK; cbn [andb].
  - assert (T : lookup status ERROR_MESSAGES = None).
    { apply andb_prop in OK. destruct OK as [L U].
      apply Z.leb_le in L. apply Z.leb_le in U.
      unfold ERROR_MESSAGES, lookup.
      repeat match goal with
             | |- context [?c =? status] =>
                 destruct (Z.eqb_spec c status); [lia|]
             end.
      reflexivity. }
    rewrite T.
    destruct data as [| b | n | str | items | fs]; run; try reflexivity.
    destruct (is_string (field (lit "status") fs) (lit "success")) eqn:S;
      run.
    + rewrite (saveTransaction_eq (JObj fs)). cbn [spread].
      unfold interpolate. run.
      destruct (field (lit "order_id") fs) as [oid|];
        [destruct (ToString_throws oid)|]; cbn [negb andb]; run;
        try reflexivity;
        (destruct (field (lit "wallet_balance_after") fs) as [bal|];
         [destruct (ToString_throws bal)|]; cbn [negb andb]; run;
         reflexivity).
    + reflexivity.
  - destruct (lookup status ERROR_MESSAGES) as [fixed|] eqn:T;
      destruct data; reflexivity.
Qed.

Lemma sendDataBundle_end (x : exchange) (w : W) :
  acceptable (ui w) ->
  snd (sendDataBundle x w)
  = match answer x with
    | Unreachable => failed (Text network_error) x w
    | Response status body =>
        if succeeded (answer x)
        then match body with
             | Some data => accepted data x w
             | None => w
             end
        else failed (message_shown status body) x w
    end.
Proof. intros A. now rewrite (sendDataBundle_run x w A). Qed.

(** A form that does not pass validation sends nothing. *)
Lemma sendDataBundle_refused (x : exchange) (w : W) :
  ~ acceptable (ui w) ->
  exists m, sendDataBundle x w
            = (Normal tt, logged (Alert "Error" (Text m)) w).
Proof.
  intros NA. destruct (validateForm_refused w NA) as (m & E).
  exists m. unfold sendDataBundle, bind. rewrite E. reflexivity.
Qed.

Lemma last_dialog_alert (events : list event) (title : string)
    (body : message) :
  last_dialog (events ++ [Alert title body]) = Some (title, body).
Proof.
  induction events as [|e rest IH]; simpl; [reflexivity|].
  now rewrite IH.
Qed.

Lemma last_dialog_failed (m : message) (x : exchange) (w : W) :
  last_dialog (trace (failed m x w)) = Some ("Error", m).
Proof. apply last_dialog_alert. Qed.


Lemma posts_app (a b : list event) : posts (a ++ b) = posts a ++ posts b.
Proof.
  induction a as [|e a IH]; simpl; [reflexivity|].
  destruct e; simpl; now rewrite IH.
Qed.

(** [saveTransaction] sends no request. *)
Lemma saveTransaction_posts (data : json) (w : W) :
  posts (trace (snd (saveTransaction data w))) = posts (trace w).
Proof.
  unfold saveTransaction, try_catch, bind, getItem_transactions,
    setItem_transactions, storage_call, Date_now, gets, console_error, emit,
    modify, logged.
  destruct (rejects w (GetItem "transactions"));
    [simpl; rewrite posts_app; apply app_nil_r|].
  destruct (transactions (storage w)) as [[[|c s]|[]]|]; simpl;
    try (rewrite posts_app; apply app_nil_r);
    destruct (rejects w (SetItem "transactions")); simpl;
    try reflexivity; rewrite posts_app; apply app_nil_r.
Qed.

(** A submission that passes validation sends exactly one request. *)
Lemma sendDataBundle_posts (x : exchange) (w : W) :
  acceptable (ui w) ->
  posts (trace (snd (sendDataBundle x w)))
  = posts (trace w) ++ [requestBody (ui w) (clock w)].
Proof.
  intros A. rewrite (sendDataBundle_end x w A).
  assert (F : forall m, posts (trace (failed m x w))
                        = posts (trace w) ++ [requestBody (ui w) (clock w)]).
  { intros m. unfold failed, posted, logged. simpl.
    rewrite !posts_app. simpl. now rewrite app_nil_r. }
  destruct (answer x) as [|status body]; [apply F|].
  destruct (succeeded (Response status body)) eqn:S; [|apply F].
  destruct body as [data|]; [|discriminate S].
  unfold accepted. destruct (dialog_renders data);
    unfold completed, unreported, success_dialog, logged;
    cbn [snd setLoading setPhone setWebhookUrl modify with_ui trace];
    rewrite posts_app, saveTransaction_posts;
    unfold posted, logged; simpl; rewrite !posts_app; simpl;
    now rewrite !app_nil_r.
Qed.

(** It ends when the answer is there. *)
Lemma sendDataBundle_clock (x : exchange) (w : W) :
  acceptable (ui w) ->
  clock (snd (sendDataBundle x w)) = clock w + Z.of_N (latency x).
Proof.
  intros A. rewrite (sendDataBundle_end x w A).
  destruct (answer x) as [|status body]; [reflexivity|].
  destruct (succeeded (Response status body)) eqn:S; [|reflexivity].
  destruct body as [data|]; [|discriminate S].
  destruct (saveTransaction_frame data (posted x w)) as (_ & C & _).
  cbn zeta in C.
  unfold accepted. destruct (dialog_renders data);
    unfold completed, unreported;
    cbn [snd setLoading setPhone setWebhookUrl modify with_ui clock logged];
    rewrite C; reflexivity.
Qed.

Lemma lookup_table (status : Z) :
  lookup status ERROR_MESSAGES <> None
  <-> In status [400; 401; 402; 403; 409; 422; 429; 500].
Proof.
  unfold ERROR_MESSAGES, lookup. simpl In.
  repeat match goal with
         | |- context [?c =? status] => destruct (Z.eqb_spec c status)
         end;
    split; intros H; try congruence; try lia; try tauto.
Qed.

Lemma success_range_not_in_table (status : Z) :
  in_success_range status = true -> lookup status ERROR_MESSAGES = None.
Proof.
  intros OK. apply andb_prop in OK. destruct OK as [L U].
  apply Z.leb_le in L. apply Z.leb_le in U.
  destruct (lookup status ERROR_MESSAGES) eqn:T; [|reflexivity].
  assert (H : lookup status ERROR_MESSAGES <> None) by congruence.
  apply lookup_table in H. simpl in H. lia.
Qed.

(** C4, amended.  When the answer is not a success, the dialog shows: the
    connectivity message if the body does not decode, whatever the status;
    otherwise the fixed string of the table if the status is one of 400,
    401, 402, 403, 409, 422, 429 and 500, whatever the decoded body (409
    gives the duplicate-reference string); otherwise the connectivity
    message if the body is [null]; otherwise the body's [message] field if
    it is truthy, and the generic string if it is absent or falsy.  Nothing
    but the dialog, the request and the spinner changes. *)
Theorem error_dialog_by_status (x : exchange) (w : W) (status : Z)
    (body : option json) :
  acceptable (ui w) ->
  answer x = Response status body ->
  succeeded (answer x) = false ->
  snd (sendDataBundle x w) = failed (message_shown status body) x w
  /\ last_dialog (trace (snd (sendDataBundle x w)))
     = Some ("Error", message_shown status body)
  /\ (lookup status ERROR_MESSAGES <> None
      <-> In status [400; 401; 402; 403; 409; 422; 429; 500])
  /\ (forall data : json,
        status = 409 -> body = Some data ->
        message_shown status body
        = Text "Duplicate reference - transaction already exists").
Proof.
  intros A E S.
  assert (R : snd (sendDataBundle x w)
              = failed (message_shown status body) x w).
  { rewrite (sendDataBundle_end x w A). rewrite E in *. now rewrite S. }
  split; [exact R|]. split; [|split].
  - rewrite R. apply last_dialog_failed.
  - apply lookup_table.
  - intros data -> ->. reflexivity.
Qed.

(** A 409 whose body is an object without a [message]. *)
Lemma error_dialog_by_status_witness :
  last_dialog (trace (snd (sendDataBundle
                             (Samples.answered 409 (Some (JObj [])))
                             Samples.ready)))
  = Some ("Error", Text "Duplicate reference - transaction already exists").
Proof.
  apply (error_dialog_by_status (Samples.answered 409 (Some (JObj [])))
           Samples.ready 409 (Some (JObj []))).
  - apply validateForm_sound. reflexivity.
  - reflexivity.
  - reflexivity.
Defined.

Lemma ready_acceptable : acceptable (ui Samples.ready).
Proof. apply validateForm_sound. reflexivity. Qed.


(** C4 as stated fails: on a 404 whose body is [null], which has no
    [message] field, the dialog shows the connectivity message and not the
    generic string. *)
Lemma error_is_not_reported_as_specified :
  last_dialog (trace (snd (sendDataBundle
                             (Samples.answered 404 (Some JNull))
                             Samples.ready)))
  = Some ("Error", Text network_error)
  /\ message_as_specified 404 JNull = Text unknown_error
  /\ ~ error_is_reported_as_specified.
Proof.
  split; [reflexivity|]. split; [reflexivity|].
  intros claim.
  specialize (claim (Samples.answered 404 (Some JNull)) Samples.ready 404
                JNull ready_acceptable eq_refl eq_refl).
  vm_compute in claim. discriminate claim.
Qed.

(** A falsy [message] is replaced by the generic string as well, and a
    body that does not decode hides even the fixed string of a 409. *)
Example empty_message_is_replaced :
  last_dialog (trace (snd (sendDataBundle
                             (Samples.answered 404
                                (Some Samples.empty_message))
                             Samples.ready)))
  = Some ("Error", Text unknown_error).
Proof. reflexivity. Qed.

Example undecodable_409 :
  last_dialog (trace (snd (sendDataBundle (Samples.answered 409 None)
                             Samples.ready)))
  = Some ("Error", Text network_error).
Proof. reflexivity. Qed.

Example null_409 :
  last_dialog (trace (snd (sendDataBundle (Samples.answered 409 (Some JNull))
                             Samples.ready)))
  = Some ("Error", Text "Duplicate reference - transaction already exists").
Proof. reflexivity. Qed.

(** C8, amended.  A status in the success range with a decoded body whose
    [status] field is not ["success"] is an error: the store (so the log)
    and the phone and webhook fields are as before, the status is not in
    the table, and the dialog shows the body's [message] field if it is
    truthy, the generic string if it is absent or falsy, and the
    connectivity message if the body is [null]. *)
Theorem soft_failure_is_an_error (x : exchange) (w : W) (status : Z)
    (data : json) :
  acceptable (ui w) ->
  answer x = Response status (Some data) ->
  in_success_range status = true ->
  succeeded (answer x) = false ->
  let w' := snd (sendDataBundle x w) in
  storage w' = storage w
  /\ phone (ui w') = phone (ui w)
  /\ webhookUrl (ui w') = webhookUrl (ui w)
  /\ lookup status ERROR_MESSAGES = None
  /\ last_dialog (trace w')
     = Some ("Error",
             match data with
             | JNull => Text network_error
             | _ =>
                 match message_field data with
                 | Some v =>
                     if truthy (Some v) then Value v else Text unknown_error
                 | None => Text unknown_error
                 end
             end).
Proof.
  intros A E OK S w'. subst w'.
  pose proof (success_range_not_in_table status OK) as T.
  rewrite (sendDataBundle_end x w A). rewrite E in *. rewrite S.
  repeat (split; [reflexivity|]).
  split; [exact T|].
  rewrite last_dialog_failed. unfold message_shown, or_else. rewrite T.
  destruct data; try reflexivity.
  destruct (message_field (JObj fields)); reflexivity.
Qed.

(** A 200 whose body says ["error"] with an empty message. *)
Lemma soft_failure_is_an_error_witness :
  let w' := snd (sendDataBundle
                   (Samples.answered 200 (Some Samples.empty_message))
                   Samples.ready) in
  storage w' = storage Samples.ready
  /\ phone (ui w') = phone (ui Samples.ready)
  /\ last_dialog (trace w') = Some ("Error", Text unknown_error).
Proof.
  destruct (soft_failure_is_an_error
              (Samples.answered 200 (Some Samples.empty_message))
              Samples.ready 200 Samples.empty_message)
    as (H1 & H2 & _ & _ & H5).
  - apply validateForm_sound. reflexivity.
  - reflexivity.
  - reflexivity.
  - reflexivity.
  - split; [exact H1|]. split; [exact H2|]. exact H5.
Defined.

(** C8 as stated fails: the empty [message] of the body is there, and the
    dialog shows the generic string instead; on the body [null] it shows
    the connectivity message. *)
Lemma soft_failure_is_not_reported_as_specified :
  last_dialog (trace (snd (sendDataBundle
                             (Samples.answered 200
                                (Some Samples.empty_message))
                             Samples.ready)))
  = Some ("Error", Text unknown_error)
  /\ message_field Samples.empty_message = Some (JStr [])
  /\ last_dialog (trace (snd (sendDataBundle
                                (Samples.answered 200 (Some JNull))
                                Samples.ready)))
     = Some ("Error", Text network_error)
  /\ ~ soft_failure_is_reported_as_specified.
Proof.
  split; [reflexivity|]. split; [reflexivity|]. split; [reflexivity|].
  intros claim.
  destruct (claim (Samples.answered 200 (Some Samples.empty_message))
              Samples.ready 200 Samples.empty_message
              ready_acceptable eq_refl eq_refl eq_refl)
    as (_ & _ & _ & H).
  vm_compute in H. discriminate H.
Qed.

(** Every submission that is not a success ends as a failure with some
    dialog. *)
Lemma sendDataBundle_failure (x : exchange) (w : W) :
  acceptable (ui w) -> succeeded (answer x) = false ->
  exists m, snd (sendDataBundle x w) = failed m x w.
Proof.
  intros A S. rewrite (sendDataBundle_end x w A).
  destruct (answer x) as [|status body]; [eauto|].
  rewrite S. eauto.
Qed.

Lemma sendDataBundle_success (x : exchange) (w : W) (status : Z)
    (data : json) :
  acceptable (ui w) ->
  answer x = Response status (Some data) ->
  succeeded (answer x) = true ->
  snd (sendDataBundle x w) = accepted data x w.
Proof.
  intros A E S. rewrite (sendDataBundle_end x w A).
  rewrite E in *. now rewrite S.
Qed.






(** C6.  A submission that passes validation sends exactly one request,
    and its JSON body has exactly these fields: [api_key], the credential;
    [phone], the phone without its white space; [size_mb], the selected
    size; [network], the network's name in lower case; [reference], a
    reference made from the clock; and [webhook_url], the webhook URL, only
    when the webhook input is not empty: when it is empty the body has no
    such field. *)
Theorem request_body_fields (x : exchange) (w : W) :
  acceptable (ui w) ->
  let s := ui w in
  let body :=
    JObj ([ (lit "api_key", JStr (apiKey s));
            (lit "phone", JStr (replace_whitespace (phone s)));
            (lit "size_mb", JNum (selectedSize s));
            (lit "network",
             JStr (lit match network s with
                       | MTN => "mtn"
                       | Telecel => "telecel"
                       end));
            (lit "reference",
             JStr (lit "TXN_" ++ Number_toString (clock w))) ]
          ++ match webhookUrl s with
             | [] => []
             | _ :: _ => [ (lit "webhook_url", JStr (webhookUrl s)) ]
             end) in
  posts (trace (snd (sendDataBundle x w))) = posts (trace w) ++ [body]
  /\ (webhookUrl s = [] -> member "webhook_url" body = undefined)
  /\ (webhookUrl s <> [] ->
      member "webhook_url" body = Some (JStr (webhookUrl s))).
Proof.
  intros A s body.
  assert (E : requestBody s (clock w) = body).
  { unfold requestBody, body, reference.
    destruct (network s), (webhookUrl s); reflexivity. }
  split; [|split].
  - rewrite <- E. apply (sendDataBundle_posts x w A).
  - intros H. unfold body. rewrite H. reflexivity.
  - intros H. unfold body. destruct (webhookUrl s); [congruence|].
    reflexivity.
Qed.

(** The sample form, sent from a reliable device. *)
Lemma request_body_fields_witness :
  posts (trace (snd (sendDataBundle Samples.offline Samples.ready)))
  = [ JObj [ (lit "api_key", JStr (lit "key-123"));
             (lit "phone", JStr (lit "0543482280"));
             (lit "size_mb", JNum 5000);
             (lit "network", JStr (lit "telecel"));
             (lit "reference", JStr (lit "TXN_1700000000000")) ] ].
Proof.
  destruct (request_body_fields Samples.offline Samples.ready) as (H & _).
  - apply validateForm_sound. reflexivity.
  - exact H.
Defined.

Lemma lit_inj (a b : string) : lit a = lit b -> a = b.
Proof.
  unfold lit. intros H.
  rewrite <- (string_of_list_ascii_of_string a),
          <- (string_of_list_ascii_of_string b).
  f_equal.
  revert H. generalize (list_ascii_of_string a) (list_ascii_of_string b).
  intros l. induction l as [|c l IH]; intros [|d m] H; simpl in H;
    try discriminate; [reflexivity|].
  injection H as Hc Hl. f_equal; [|now apply IH].
  rewrite <- (ascii_N_embedding c), <- (ascii_N_embedding d).
  now rewrite Hc.
Qed.

(** Two integers with the same decimal digits are equal. *)
Lemma Number_toString_inj (n m : Z) :
  Number_toString n = Number_toString m -> n = m.
Proof.
  unfold Number_toString. intros H. apply lit_inj in H.
  assert (P : forall z, NilZero.int_of_string
                          (NilZero.string_of_int (Z.to_int z))
                        = Some (Z.to_int z)).
  { intros z. apply NilZero.isi; destruct z; simpl; try discriminate;
      intros [= E]; exact (Unsigned.to_uint_nonnil _ E). }
  apply (f_equal NilZero.int_of_string) in H.
  rewrite !P in H. injection H as H.
  now apply DecimalZ.to_int_inj.
Qed.

Lemma reference_inj (t1 t2 : Z) : reference t1 = reference t2 -> t1 = t2.
Proof.
  unfold reference. intros H.
  apply app_inv_head in H. now apply Number_toString_inj.
Qed.

Lemma reference_of_requestBody (s : State) (now : Z) :
  reference_of (requestBody s now) = Some (JStr (reference now)).
Proof. reflexivity. Qed.

(** C7, amended.  The reference of a submission is [TXN_] followed by the
    decimal reading of the clock, in milliseconds, when the request is
    built.  So the references of two submissions in a row differ if and
    only if the clock has advanced between them; two submissions within
    one millisecond get the same reference. *)
Theorem references_differ_iff_clock_advanced (w : W) (x1 x2 : exchange)
    (gap : N) (edit : State -> State) :
  acceptable (ui w) ->
  acceptable (ui (second_start x1 gap edit w)) ->
  exists b1 b2 : json,
    posts (trace (snd (sendDataBundle x2 (second_start x1 gap edit w))))
    = posts (trace w) ++ [b1; b2]
    /\ reference_of b1 = Some (JStr (reference (clock w)))
    /\ reference_of b2
       = Some (JStr (reference
                       (clock w + Z.of_N (latency x1) + Z.of_N gap)))
    /\ (reference_of b1 <> reference_of b2 <-> (0 < latency x1 + gap)%N).
Proof.
  intros A1 A2.
  set (w2 := second_start x1 gap edit w) in *.
  assert (C : clock w2 = clock w + Z.of_N (latency x1) + Z.of_N gap).
  { unfold w2, second_start. cbn [clock with_ui after].
    now rewrite (sendDataBundle_clock x1 w A1). }
  assert (T : posts (trace w2)
              = posts (trace w) ++ [requestBody (ui w) (clock w)]).
  { unfold w2, second_start. cbn [trace with_ui after].
    apply (sendDataBundle_posts x1 w A1). }
  exists (requestBody (ui w) (clock w)), (requestBody (ui w2) (clock w2)).
  split; [|split; [|split]].
  - rewrite (sendDataBundle_posts x2 w2 A2), T, <- app_assoc. reflexivity.
  - apply reference_of_requestBody.
  - rewrite reference_of_requestBody, C. reflexivity.
  - rewrite !reference_of_requestBody, C. split.
    + intros NE.
      destruct (N.eq_dec (latency x1 + gap) 0) as [Z0|]; [|lia].
      exfalso. apply NE. repeat f_equal. lia.
    + intros P E.
      assert (E' : reference (clock w)
                   = reference (clock w + Z.of_N (latency x1) + Z.of_N gap))
        by congruence.
      apply reference_inj in E'. lia.
Qed.

(** A failed attempt that took 120 ms, then a second one. *)
Lemma references_differ_iff_clock_advanced_witness :
  exists b1 b2 : json,
    posts (trace (snd (sendDataBundle Samples.offline
                         (second_start (Samples.answered 500 None) 0
                            (fun s => s) Samples.ready))))
    = [b1; b2]
    /\ reference_of b1 = Some (JStr (lit "TXN_1700000000000"))
    /\ reference_of b2 = Some (JStr (lit "TXN_1700000000120"))
    /\ reference_of b1 <> reference_of b2.
Proof.
  destruct (references_differ_iff_clock_advanced Samples.ready
              (Samples.answered 500 None) Samples.offline 0 (fun s => s))
    as (b1 & b2 & P & R1 & R2 & D).
  - apply validateForm_sound. reflexivity.
  - apply validateForm_sound. reflexivity.
  - exists b1, b2. split; [exact P|]. split; [exact R1|].
    split; [exact R2|]. apply D. reflexivity.
Defined.

(** C7 as stated fails: a submission that fails at once and a second one
    in the same millisecond carry the same reference. *)
Lemma same_reference_within_a_millisecond :
  let w2 := second_start Samples.offline 0 (fun s => s) Samples.ready in
  clock w2 = clock Samples.ready
  /\ (exists b : json,
        posts (trace (snd (sendDataBundle Samples.offline w2))) = [b; b]
        /\ reference_of b = Some (JStr (lit "TXN_1700000000000")))
  /\ ~ references_always_differ.
Proof.
  split; [reflexivity|]. split.
  - eexists. split; reflexivity.
  - intros claim.
    refine (claim Samples.ready Samples.offline Samples.offline 0%N
              (fun s => s) _ _ ready_acceptable _ eq_refl eq_refl).
    apply validateForm_sound. reflexivity.
Qed.

(** X1.  A form that fails validation is not submitted: the submission
    ends where [validateForm] ends, with the dialog that [validateForm]
    shows for the first failing rule and nothing else; no request leaves,
    and the component, the store and the clock stay as they are. *)
Theorem invalid_form_is_not_sent (x : exchange) (w : W) :
  ~ acceptable (ui w) ->
  let w' := snd (sendDataBundle x w) in
  fst (sendDataBundle x w) = Normal tt
  /\ w' = snd (validateForm w)
  /\ fst (validateForm w) = Normal false
  /\ posts (trace w') = posts (trace w)
  /\ ui w' = ui w /\ storage w' = storage w /\ clock w' = clock w
  /\ exists m, trace w' = trace w ++ [Alert "Error" (Text m)].
Proof.
  intros NA w'. subst w'.
  destruct (validateForm_refused w NA) as (m & V).
  assert (E : sendDataBundle x w = (Normal tt, snd (validateForm w)))
    by (unfold sendDataBundle, bind; rewrite V; reflexivity).
  rewrite E, V. unfold refused.
  cbn [fst snd logged trace ui storage clock].
  rewrite posts_app. cbn [posts]. rewrite app_nil_r.
  repeat split. now exists m.
Qed.

Lemma invalid_form_is_not_sent_witness :
  posts (trace (snd (sendDataBundle Samples.offline
                       (Samples.form "key" "12345" ""))))
  = [].
Proof.
  destruct (invalid_form_is_not_sent Samples.offline
              (Samples.form "key" "12345" "")) as (_ & _ & _ & H & _).
  - intros A. apply validateForm_accepted in A. discriminate A.
  - exact H.
Defined.

(** X2.  A submission is a single attempt: whatever the server does, it ends
    normally, exactly one request has left, and the spinner is off. *)
Theorem single_attempt (x : exchange) (w : W) :
  acceptable (ui w) ->
  let w' := snd (sendDataBundle x w) in
  fst (sendDataBundle x w) = Normal tt
  /\ List.length (posts (trace w')) = S (List.length (posts (trace w)))
  /\ loading (ui w') = false.
Proof.
  intros A w'. subst w'.
  split; [now rewrite (sendDataBundle_run x w A)|].
  split.
  - rewrite (sendDataBundle_posts x w A), length_app. simpl. lia.
  - rewrite (sendDataBundle_end x w A).
    destruct (answer x) as [|status body]; [reflexivity|].
    destruct (succeeded (Response status body)) eqn:S; [|reflexivity].
    destruct body as [data|]; [|discriminate S].
    unfold accepted. now destruct (dialog_renders data).
Qed.

Lemma single_attempt_witness :
  loading (ui (snd (sendDataBundle (Samples.answered 500 None)
                      Samples.ready))) = false.
Proof.
  apply (single_attempt (Samples.answered 500 None) Samples.ready).
  apply validateForm_sound. reflexivity.
Defined.

(** X3.  When the server is not reached the connectivity dialog is shown, and
    the store and the form are left as they were. *)
Theorem unreachable_server (x : exchange) (w : W) :
  acceptable (ui w) ->
  answer x = Unreachable ->
  let w' := snd (sendDataBundle x w) in
  last_dialog (trace w') = Some ("Error", Text network_error)
  /\ storage w' = storage w
  /\ phone (ui w') = phone (ui w)
  /\ webhookUrl (ui w') = webhookUrl (ui w).
Proof.
  intros A E w'. subst w'.
  rewrite (sendDataBundle_end x w A), E.
  split; [apply last_dialog_failed|]. repeat split.
Qed.

Lemma unreachable_server_witness :
  last_dialog (trace (snd (sendDataBundle Samples.offline Samples.ready)))
  = Some ("Error", Text network_error).
Proof.
  apply (unreachable_server Samples.offline Samples.ready).
  - apply validateForm_sound. reflexivity.
  - reflexivity.
Defined.

(** Choosing a network selects it together with its first bundle
    size. *)
Theorem handleNetworkChange_first_size (n : Network) (w : W) :
  let w' := snd (handleNetworkChange n w) in
  network (ui w') = n
  /\ selectedSize (ui w')
     = match n with MTN => 1024%float | Telecel => 5000%float end
  /\ In (selectedSize (ui w')) (BUNDLE_SIZES n)
  /\ storage w' = storage w /\ trace w' = trace w.
Proof.
  destruct n; cbn; repeat split; now left.
Qed.

End Submission.

(* ===================================================================== *)
(** * The credential *)
(* ===================================================================== *)

Module Credential.
Import JS Eff Platform Settings CredentialRules StringFacts.

Ltac run :=
  cbv beta iota zeta delta
    [save load bind try_catch ret throw gets modify emit setApiKey
     setTempApiKey saveApiKey loadApiKey clearApiKey clearAllData
     getItem_api_key setItem_api_key removeItem_api_key multiRemove_all
     storage_call Alert_alert console_log console_error fst snd
     with_ui with_storage logged ui storage rejects clock trace
     apiKey tempApiKey api_key transactions loaded].

(** C9, amended.  [save(value)] never throws.  With a value that is empty
    or only white space it shows the validation error and leaves the
    store and the current key as they are.  With any other value, when
    the store accepts the write, it overwrites the stored credential with
    the trimmed value (not the value as typed) and keeps the log; a
    [load()] afterwards returns that trimmed value when the store accepts
    the read, and the empty string when it does not.  When the store
    rejects the write, nothing is overwritten: the store and the current
    key stay as they were, the dialog says that the save failed, and a
    [load()] afterwards returns what it returned before. *)
Theorem save_validates_then_stores (value : jsstring) (w : W) :
  let w' := snd (save value w) in
  fst (save value w) = Normal tt
  /\ (forallb isWhiteSpace value = true <-> trim value = [])
  /\ (trim value = [] ->
      storage w' = storage w
      /\ apiKey (ui w') = apiKey (ui w)
      /\ SubmissionRules.last_dialog (trace w')
         = Some ("Error", Text "Please enter an API key"))
  /\ (trim value <> [] ->
      rejects w (SetItem "api_key") = false ->
      storage w' = mkStorage (Some (trim value)) (transactions (storage w))
      /\ apiKey (ui w') = trim value
      /\ SubmissionRules.last_dialog (trace w')
         = Some ("Success", Text "API key saved successfully")
      /\ loaded w'
         = if rejects w (GetItem "api_key") then [] else trim value)
  /\ (trim value <> [] ->
      rejects w (SetItem "api_key") = true ->
      storage w' = storage w
      /\ apiKey (ui w') = apiKey (ui w)
      /\ SubmissionRules.last_dialog (trace w')
         = Some ("Error", Text "Failed to save API key")
      /\ loaded w' = loaded w).
Proof.
  destruct w as [[a t] [k l] rj ck tr]. intros w'. subst w'. run.
  split.
  { destruct (nonempty (trim value)); cbn [negb]; [|reflexivity].
    destruct (rj (SetItem "api_key")); reflexivity. }
  split; [symmetry; apply trim_nil|].
  split; [|split].
  - intros E. rewrite E. cbn [nonempty negb].
    split; [reflexivity|]. split; [reflexivity|].
    apply Submission.last_dialog_alert.
  - intros NE OK.
    apply nonempty_true in NE.
    rewrite NE. cbn [negb]. rewrite OK. cbn [negb].
    split; [reflexivity|]. split; [reflexivity|]. split.
    + apply Submission.last_dialog_alert.
    + destruct (rj (GetItem "api_key")); [reflexivity|].
      cbn [negb]. now rewrite NE.
  - intros NE KO.
    apply nonempty_true in NE.
    rewrite NE. cbn [negb]. rewrite KO.
    split; [reflexivity|]. split; [reflexivity|]. split.
    + apply Submission.last_dialog_alert.
    + destruct (rj (GetItem "api_key")); [reflexivity|].
      destruct k as [[|c k]|]; reflexivity.
Qed.

(** A key typed with spaces around it, on the sample device. *)
Lemma save_validates_then_stores_witness :
  let w' := snd (save (lit "  new-key ") Samples.settings) in
  api_key (storage w') = Some (lit "new-key")
  /\ transactions (storage w') = transactions (storage Samples.settings)
  /\ loaded w' = lit "new-key".
Proof.
  destruct (save_validates_then_stores (lit "  new-key ") Samples.settings)
    as (_ & _ & _ & H & _).
  destruct H as (S & _ & _ & L).
  - discriminate.
  - reflexivity.
  - split; [now rewrite S|]. split; [now rewrite S|].
    exact L.
Defined.

(** C9 as stated fails: on a store that rejects the write the old key
    stays and is what the next [load()] returns; and a key typed with
    spaces around it is stored, and loaded, without them. *)
Lemma saved_value_is_not_always_loaded :
  loaded (snd (save (lit "new-key") Samples.settings_on_full_store))
  = lit "old-key"
  /\ loaded (snd (save (lit "  new-key ") Samples.settings))
     = lit "new-key"
  /\ ~ saved_value_is_loaded.
Proof.
  split; [reflexivity|]. split; [reflexivity|].
  intros claim.
  destruct (claim (lit "new-key") Samples.settings_on_full_store)
    as (_ & H).
  destruct H as (_ & H); [discriminate|].
  assert (E : loaded (snd (save (lit "new-key")
                             Samples.settings_on_full_store))
              = lit "old-key") by reflexivity.
  rewrite E in H. discriminate H.
Qed.

Example blank_key_is_refused :
  storage (snd (save (lit "   ") Samples.settings))
  = storage Samples.settings.
Proof. reflexivity. Qed.

(** C10.  Clearing the credential never touches the log: whatever the
    store holds, whichever button is pressed, and whether the store
    accepts the removal or not, the value under the log's key is the same
    afterwards.  The credential is removed when the user confirms and the
    store accepts the removal, and is kept otherwise. *)
Theorem clearApiKey_keeps_log (pressed : choice) (w : W) :
  let w' := snd (clearApiKey pressed w) in
  fst (clearApiKey pressed w) = Normal tt
  /\ transactions (storage w') = transactions (storage w)
  /\ api_key (storage w')
     = match pressed with
       | Confirm =>
           if rejects w (RemoveItem "api_key") then api_key (storage w)
           else None
       | Cancel => api_key (storage w)
       end.
Proof.
  destruct w as [[a t] [k l] rj ck tr]. intros w'. subst w'. run.
  destruct pressed; [repeat split|].
  destruct (rj (RemoveItem "api_key")); repeat split.
Qed.

Example clear_key_with_log :
  storage (snd (clearApiKey Confirm Samples.settings))
  = mkStorage None (Some (JsonText (JArr [Samples.order]))).
Proof. reflexivity. Qed.

Example clear_all_removes_log :
  storage (snd (clearAllData Confirm Samples.settings)) = mkStorage None None.
Proof. reflexivity. Qed.

(** X5.  Clearing all data never throws.  Cancelling changes nothing.  On
    a confirmation that the store accepts, the credential and the log are
    removed together and both fields of the screen are emptied.  When the
    store rejects the removal nothing is rolled back: each of the two
    items is either as it was or removed, the fields of the screen are
    left as they were, and the dialog says that clearing failed. *)
Theorem clearAllData_removes_both (pressed : choice) (w : W) :
  let keys := ["api_key"; "transactions"] in
  let w' := snd (clearAllData pressed w) in
  fst (clearAllData pressed w) = Normal tt
  /\ (pressed = Cancel -> storage w' = storage w /\ ui w' = ui w)
  /\ (pressed = Confirm ->
      rejects w (MultiRemove keys) = false ->
      storage w' = mkStorage None None
      /\ ui w' = mkState [] []
      /\ SubmissionRules.last_dialog (trace w')
         = Some ("Success", Text "All data cleared"))
  /\ (pressed = Confirm ->
      rejects w (MultiRemove keys) = true ->
      (api_key (storage w') = api_key (storage w)
       \/ api_key (storage w') = None)
      /\ (transactions (storage w') = transactions (storage w)
          \/ transactions (storage w') = None)
      /\ ui w' = ui w
      /\ SubmissionRules.last_dialog (trace w')
         = Some ("Error", Text "Failed to clear data")).
Proof.
  destruct w as [[a t] [k l] rj ck tr]. intros keys w'. subst keys w'. run.
  split.
  { destruct pressed; [reflexivity|].
    destruct (rj (MultiRemove ["api_key"; "transactions"])); reflexivity. }
  split; [intros ->; split; reflexivity|].
  split; intros -> R; rewrite R.
  - split; [reflexivity|]. split; [reflexivity|].
    apply Submission.last_dialog_alert.
  - split.
    { destruct (rj (RemoveOf ["api_key"; "transactions"] "api_key"));
        [now left | now right]. }
    split.
    { destruct (rj (RemoveOf ["api_key"; "transactions"] "transactions"));
        [now left | now right]. }
    split; [reflexivity|]. apply Submission.last_dialog_alert.
Qed.

(** A removal that fails half way: the key is gone, the log is still
    there, and the screen still shows the key. *)
Example clear_all_fails_half_way :
  let w' := snd (clearAllData Confirm Samples.settings_on_failing_removal) in
  api_key (storage w') = None
  /\ transactions (storage w')
     = transactions (storage Samples.settings_on_failing_removal)
  /\ apiKey (ui w') = lit "old-key".
Proof. repeat split. Qed.

(** X6.  Loading the key fills both fields of the settings screen with a stored
    key that is not empty, and leaves them alone otherwise. *)
Theorem loadApiKey_fills_fields (w : W) :
  let w' := snd (loadApiKey w) in
  fst (loadApiKey w) = Normal tt
  /\ storage w' = storage w
  /\ ui w'
     = if rejects w (GetItem "api_key") then ui w
       else match api_key (storage w) with
            | Some (c :: k) => mkState (c :: k) (c :: k)
            | _ => ui w
            end.
Proof.
  destruct w as [[a t] [[[|c k]|] l] rj ck tr]; intros w'; subst w'; run;
    destruct (rj (GetItem "api_key")); repeat split.
Qed.

End Credential.

(* ===================================================================== *)
(** * More on trimming and on object fields *)
(* ===================================================================== *)

Module TrimFacts.
Import JS StringFacts.

(** A string that starts with a code unit that is not white space is left
    alone by [trimStart]. *)
Lemma trimStart_fixed (c : N) (r : jsstring) :
  isWhiteSpace c = false -> trimStart (c :: r) = c :: r.
Proof. intros H. simpl. now rewrite H. Qed.

(** [trimStart] removes a prefix of white space. *)
Lemma trimStart_split (s : jsstring) :
  exists t, s = t ++ trimStart s /\ forallb isWhiteSpace t = true.
Proof.
  induction s as [|c r (t & E & F)]; simpl.
  - now exists [].
  - destruct (isWhiteSpace c) eqn:W.
    + exists (c :: t). simpl. rewrite W, F. split; [now f_equal|reflexivity].
    + now exists [].
Qed.

Lemma trimStart_idem (s : jsstring) : trimStart (trimStart s) = trimStart s.
Proof.
  destruct (trimStart_head s) as [-> | (c & r & -> & W)]; [reflexivity|].
  now apply trimStart_fixed.
Qed.

(** What [trim] returns is empty, or starts and ends with a code unit that
    is not white space. *)
Lemma trim_ends (s : jsstring) :
  trim s = []
  \/ ((exists c r, trim s = c :: r /\ isWhiteSpace c = false)
      /\ (exists r c, trim s = r ++ [c] /\ isWhiteSpace c = false)).
Proof.
  unfold trim, trimEnd.
  set (a := trimStart s).
  destruct (trimStart_split (rev a)) as (t & E & F).
  destruct (trimStart_head (rev a)) as [Z | (c & r & Z & W)].
  - left. now rewrite Z.
  - right. split.
    + rewrite Z in E.
      apply (f_equal (@rev N)) in E. rewrite rev_involutive in E.
      rewrite rev_app_distr in E.
      destruct (trimStart_head s) as [A | (c' & r' & A & W')].
      * fold a in A. rewrite A in E.
        destruct (rev (c :: r)) eqn:R; [|discriminate E].
        apply (f_equal (@rev N)) in R. rewrite rev_involutive in R.
        discriminate R.
      * fold a in A. rewrite A in E. rewrite Z.
        destruct (rev (c :: r)) as [|x y] eqn:R.
        -- apply (f_equal (@rev N)) in R. rewrite rev_involutive in R.
           discriminate R.
        -- simpl in E. injection E as -> _. now exists x, y.
    + rewrite Z. simpl. now exists (rev r), c.
Qed.

(** Trimming twice is trimming once. *)
Lemma trim_idempotent (s : jsstring) : trim (trim s) = trim s.
Proof.
  destruct (trim_ends s) as [-> | ((c & r & E & W) & (r' & c' & E' & W'))];
    [reflexivity|].
  remember (trim s) as b eqn:B. clear B.
  assert (H1 : trimStart b = b)
    by (rewrite E; now apply trimStart_fixed).
  assert (H2 : trimStart (rev b) = rev b).
  { rewrite E', rev_app_distr. simpl. now rewrite W'. }
  unfold trim, trimEnd. now rewrite H1, H2, rev_involutive.
Qed.

(** A string has something left after trimming exactly when it has
    something left after the removal of all white space. *)
Lemma stripped_nonempty (s : jsstring) :
  replace_whitespace s <> [] <-> trim s <> [].
Proof.
  rewrite trim_nonempty. unfold replace_whitespace. split.
  - intros H. destruct (filter _ s) as [|c r] eqn:F; [congruence|].
    assert (I : In c (filter (fun c => negb (isWhiteSpace c)) s))
      by (rewrite F; now left).
    apply filter_In in I. destruct I as [I W].
    exists c. split; [exact I|]. now apply negb_true_iff.
  - intros (c & I & W) F.
    assert (J : In c (filter (fun c => negb (isWhiteSpace c)) s)).
    { apply filter_In. split; [exact I|]. now rewrite W. }
    rewrite F in J. contradiction.
Qed.

(** Assigning one property leaves the others as they are. *)
Lemma field_set_field_other (k k' : jsstring) (v : json)
    (fs : list (jsstring * json)) :
  k' <> k -> field k' (set_field k v fs) = field k' fs.
Proof.
  intros NE. induction fs as [|[a b] r IH]; simpl.
  - destruct (jsstring_eqb k k') eqn:E; [|reflexivity].
    apply jsstring_eqb_eq in E. congruence.
  - destruct (jsstring_eqb a k) eqn:E; simpl.
    + apply jsstring_eqb_eq in E. subst a.
      destruct (jsstring_eqb k k') eqn:E'; [|reflexivity].
      apply jsstring_eqb_eq in E'. congruence.
    + now rewrite IH.
Qed.

End TrimFacts.

(* ===================================================================== *)
(** * What an append stores, and what it leaves alone *)
(* ===================================================================== *)

Module Entries.
Import JS Eff Platform SendData LogRules SubmissionRules.
Import StringFacts TrimFacts Log.

(** X7.  The entry that [saveTransaction] puts at the head of the log is
    the response object with one change: its [timestamp] is the time of
    the append in ISO 8601, whether or not the response had a [timestamp]
    of its own.  Every other field of the response is stored as
    [JSON.stringify] writes it: as it came, unless it holds a number that
    is not finite (written as [null]) or a negative zero (written as
    [0]). *)
Theorem stored_entry_carries_response (fs : list (jsstring * json)) (w : W)
    (old : list json) :
  reliable w ->
  starting_sequence (storage w) = Some old ->
  exists efs : list (jsstring * json),
    entries (storage (snd (saveTransaction (JObj fs) w)))
    = Some (JObj efs :: stored (firstn (cap - 1) old))
    /\ field (lit "timestamp") efs = Some (JStr (toISOString (clock w)))
    /\ (forall k : jsstring,
          k <> lit "timestamp" ->
          field k efs = option_map written (field k fs))
    /\ (forall (k : jsstring) (v : json),
          k <> lit "timestamp" ->
          field k fs = Some v -> written v = v ->
          field k efs = Some v).
Proof.
  intros R H.
  set (efs := set_field (lit "timestamp") (JStr (toISOString (clock w))) fs).
  assert (F : forall k : jsstring,
            k <> lit "timestamp" ->
            field k (map (fun kv => (fst kv, written (snd kv))) efs)
            = option_map written (field k fs)).
  { intros k NE. rewrite field_written. unfold efs.
    now rewrite field_set_field_other. }
  exists (map (fun kv => (fst kv, written (snd kv))) efs).
  split; [|split; [|split]].
  - now rewrite (saveTransaction_from_start (JObj fs) w old R H).
  - rewrite field_written. unfold efs. now rewrite field_set_field.
  - exact F.
  - intros k v NE E N. rewrite (F k NE), E. cbn [option_map]. now rewrite N.
Qed.

(** A server that sends a [timestamp] of its own is overruled, the
    order's number is kept, and a balance of [1e999] is stored as
    [null]. *)
Lemma stored_entry_carries_response_witness :
  exists efs : list (jsstring * json),
    entries (storage (snd (saveTransaction
                             (JObj [ (lit "timestamp", JStr (lit "never"));
                                     (lit "order_id", JNum 7);
                                     (lit "wallet_balance_after",
                                      JNum infinity) ])
                             Samples.ready)))
    = Some [JObj efs]
    /\ field (lit "timestamp") efs
       = Some (JStr (lit "2023-11-14T22:13:20.000Z"))
    /\ field (lit "order_id") efs = Some (JNum 7)
    /\ field (lit "wallet_balance_after") efs = Some JNull.
Proof.
  destruct (stored_entry_carries_response
              [ (lit "timestamp", JStr (lit "never"));
                (lit "order_id", JNum 7);
                (lit "wallet_balance_after", JNum infinity) ]
              Samples.ready [])
    as (efs & E & T & F & _).
  - intros op. reflexivity.
  - reflexivity.
  - exists efs. split; [exact E|]. split; [exact T|].
    split; (rewrite F; [reflexivity | discriminate]).
Defined.

(** X8.  An append either writes the log or reports to the console, never
    both and never neither: when it writes, the log becomes the new entry
    in front of the sequence it started from, cut to fifty, each entry as
    [JSON.stringify] writes it, and the trace is as before; when it does
    not, the store is as before and one [console.error] line is added.
    In both cases it shows no dialog, sends no request, and leaves the
    form, the clock and the stored credential alone. *)
Theorem saveTransaction_writes_or_reports (data : json) (w : W) :
  let w' := snd (saveTransaction data w) in
  ui w' = ui w /\ clock w' = clock w
  /\ api_key (storage w') = api_key (storage w)
  /\ ((trace w' = trace w
       /\ exists old : list json,
            starting_sequence (storage w) = Some old
            /\ storage w'
               = with_log
                   (stored (firstn cap (newTransaction data (clock w) :: old)))
                   (storage w))
      \/ (storage w' = storage w
          /\ exists error : exn,
               trace w'
               = trace w ++ [ConsoleError "Error saving transaction:" error])).
Proof.
  unfold saveTransaction, try_catch, bind, getItem_transactions,
    setItem_transactions, storage_call, Date_now, gets, console_error, emit,
    modify, starting_sequence, with_log.
  destruct (rejects w (GetItem "transactions"));
    [simpl; repeat split; right; split; eauto|].
  destruct (transactions (storage w)) as [[[|c s]|[]]|]; simpl;
    try (repeat split; right; split; eauto; fail);
    destruct (rejects w (SetItem "transactions")); simpl;
    repeat split;
    first [ right; split; [reflexivity | eauto]
          | left; split; [reflexivity | eauto] ].
Qed.

End Entries.

(* ===================================================================== *)
(** * Sessions on the send screen *)
(* ===================================================================== *)

Module Sessions.
Import JS Eff Platform SendData FormRules LogRules SubmissionRules.
Import SendActions StringFacts TrimFacts Validation Log Submission.

Lemma acceptable_dec (w : W) : acceptable (ui w) \/ ~ acceptable (ui w).
Proof.
  destruct (validateForm w) as [[[|]|e] w'] eqn:E.
  - left. apply validateForm_sound. now rewrite E.
  - right. intros A. rewrite (validateForm_accepted w A) in E. discriminate.
  - right. intros A. rewrite (validateForm_accepted w A) in E. discriminate.
Qed.

(** What a submission leaves alone, whether it is sent or not. *)
Lemma sendDataBundle_keeps (x : exchange) (w : W) :
  let w' := snd (sendDataBundle x w) in
  network (ui w') = network (ui w)
  /\ selectedSize (ui w') = selectedSize (ui w)
  /\ apiKey (ui w') = apiKey (ui w)
  /\ api_key (storage w') = api_key (storage w)
  /\ rejects w' = rejects w.
Proof.
  destruct (acceptable_dec w) as [A | NA].
  - cbn zeta. rewrite (sendDataBundle_end x w A).
    destruct (answer x) as [|status body]; [repeat split|].
    destruct (succeeded (Response status body)) eqn:S; [|repeat split].
    destruct body as [data|]; [|discriminate S].
    destruct (saveTransaction_frame data (posted x w)) as (U & _ & R & K).
    cbn zeta in U, R, K.
    unfold accepted. destruct (dialog_renders data);
      unfold completed, unreported;
      cbn [snd setLoading setPhone setWebhookUrl modify with_ui logged ui
           storage rejects network selectedSize apiKey];
      rewrite U, R, K; repeat split.
  - destruct (sendDataBundle_refused x w NA) as (m & ->). repeat split.
Qed.

(** X10.  Whatever the server answers and whether the form is valid or not,
    a submission never changes the selected network, the selected size or
    the key the component holds, and never writes the stored credential. *)
Theorem submission_keeps_selection_and_key (x : exchange) (w : W) :
  let w' := snd (sendDataBundle x w) in
  network (ui w') = network (ui w)
  /\ selectedSize (ui w') = selectedSize (ui w)
  /\ apiKey (ui w') = apiKey (ui w)
  /\ api_key (storage w') = api_key (storage w).
Proof.
  destruct (sendDataBundle_keeps x w) as (H1 & H2 & H3 & H4 & _).
  cbn zeta in *. auto.
Qed.

Lemma loadApiKey_keeps (w : W) :
  let w' := snd (loadApiKey w) in
  network (ui w') = network (ui w)
  /\ selectedSize (ui w') = selectedSize (ui w)
  /\ phone (ui w') = phone (ui w)
  /\ webhookUrl (ui w') = webhookUrl (ui w)
  /\ storage w' = storage w
  /\ posts (trace w') = posts (trace w).
Proof.
  unfold loadApiKey, try_catch, bind, getItem_api_key, storage_call,
    setApiKey, console_error, emit, modify, ret, logged.
  destruct (rejects w (GetItem "api_key")); simpl.
  - rewrite posts_app. simpl. rewrite app_nil_r.
    destruct w as [u st rj ck tr], st; repeat split.
  - destruct w as [u [[[|c k]|] l] rj ck tr]; simpl; repeat split.
Qed.

Lemma perform_keeps_size (a : action) (w : W) :
  size_offered (ui w) -> size_offered (ui (snd (perform a w))).
Proof.
  unfold size_offered. intros H. destruct a as [n | i | p | u | x | e];
    simpl.
  - destruct n; simpl; now left.
  - unfold bind, gets. cbn [fst snd].
    destruct (nth_error (BUNDLE_SIZES (network (ui w))) i) as [size|] eqn:E;
      simpl; [|exact H].
    now apply nth_error_In in E.
  - exact H.
  - exact H.
  - unfold bind, gets. destruct (loading (ui w)); [exact H|].
    destruct (sendDataBundle_keeps x w) as (N & Z & _).
    cbn zeta in N, Z. now rewrite N, Z.
  - exact H.
Qed.

(** X4.  On the send screen the selected size is always one of the sizes
    offered for the selected network: this holds when the screen is
    mounted and after every sequence of presses, inputs and submissions,
    on every device. *)
Theorem selected_size_always_offered {S : Type} (d : World S)
    (actions : list action) :
  size_offered (ui (perform_all actions (mount d))).
Proof.
  assert (I : size_offered (ui (@mount S d))).
  { unfold size_offered, mount.
    destruct (loadApiKey_keeps
                (mkWorld initial (storage d) (rejects d) (clock d)
                   (trace d))) as (N & Z & _).
    cbn zeta in N, Z. rewrite N, Z. simpl. now left. }
  revert I. generalize (@mount S d).
  induction actions as [|a rest IH]; intros w I; simpl; [exact I|].
  apply IH. now apply perform_keeps_size.
Qed.

Lemma lower_name (n : Network) :
  toLowerCase (Network_name n)
  = lit match n with MTN => "mtn" | Telecel => "telecel" end.
Proof. destruct n; reflexivity. Qed.

(** The body of a validated form whose size is offered. *)
Lemma requestBody_order_request (s : State) (now : Z) :
  acceptable s -> size_offered s -> order_request (requestBody s now).
Proof.
  intros (C & _ & (L & D) & H) Z.
  exists (apiKey s), (replace_whitespace (phone s)), (selectedSize s),
    (network s), now,
    (if nonempty (webhookUrl s)
     then [ (lit "webhook_url", JStr (webhookUrl s)) ] else []).
  split; [unfold requestBody, reference; now rewrite lower_name|].
  repeat (split; [assumption|]).
  destruct H as [-> | (rest & E)]; [now left|].
  rewrite E. right. now exists rest.
Qed.

Lemma perform_posts (a : action) (w : W) :
  size_offered (ui w) ->
  exists new, posts (trace (snd (perform a w))) = posts (trace w) ++ new
              /\ Forall order_request new.
Proof.
  intros Z.
  assert (Same : forall w' : W, posts (trace w') = posts (trace w) ->
            exists new, posts (trace w') = posts (trace w) ++ new
                        /\ Forall order_request new).
  { intros w' E. exists []. now rewrite app_nil_r. }
  destruct a as [n | i | p | u | x | e]; simpl.
  - apply Same. destruct n; reflexivity.
  - apply Same. unfold bind, gets. cbn [fst snd].
    now destruct (nth_error (BUNDLE_SIZES (network (ui w))) i).
  - now apply Same.
  - now apply Same.
  - unfold bind, gets. destruct (loading (ui w)); [now apply Same|].
    destruct (acceptable_dec w) as [A | NA].
    + exists [requestBody (ui w) (clock w)]. split.
      * apply (sendDataBundle_posts x w A).
      * constructor; [|constructor].
        now apply requestBody_order_request.
    + apply Same.
      destruct (sendDataBundle_refused x w NA) as (m & ->).
      cbn [snd logged trace]. rewrite posts_app. apply app_nil_r.
  - now apply Same.
Qed.

(** X9.  Every request that leaves the send screen is a well-formed order:
    whatever the user types and presses, on every device, each request
    sent since the screen was mounted has a credential that is not blank,
    a phone of exactly ten decimal digits, a size offered for the network
    it names, a reference, and a webhook URL only when it starts with
    [https://]. *)
Theorem every_request_is_an_order {S : Type} (d : World S)
    (actions : list action) :
  exists new : list json,
    posts (trace (perform_all actions (mount d))) = posts (trace d) ++ new
    /\ Forall order_request new.
Proof.
  assert (I : size_offered (ui (@mount S d))
              /\ posts (trace (@mount S d)) = posts (trace d) ++ []).
  { unfold size_offered, mount.
    destruct (loadApiKey_keeps
                (mkWorld initial (storage d) (rejects d) (clock d)
                   (trace d))) as (N & Z & _ & _ & _ & P).
    cbn zeta in N, Z, P. rewrite N, Z, P, app_nil_r.
    split; [simpl; now left | reflexivity]. }
  destruct I as [I P].
  assert (G : exists new, posts (trace (@mount S d)) = posts (trace d) ++ new
                          /\ Forall order_request new)
    by (exists []; split; [exact P | constructor]).
  revert I G. generalize (@mount S d).
  induction actions as [|a rest IH]; intros w I G; simpl; [exact G|].
  apply IH; [now apply perform_keeps_size|].
  destruct G as (new & E & F).
  destruct (perform_posts a w I) as (more & E' & F').
  exists (new ++ more). split.
  - now rewrite E', E, app_assoc.
  - apply Forall_app. now split.
Qed.

(** X11.  A submission that was not a success can be sent again as it is:
    the phone, the webhook URL, the selection and the key are unchanged,
    the form still passes validation, and the store is as before. *)
Theorem failed_submission_can_be_retried (x : exchange) (w : W) :
  acceptable (ui w) ->
  succeeded (answer x) = false ->
  let w' := snd (sendDataBundle x w) in
  acceptable (ui w')
  /\ phone (ui w') = phone (ui w)
  /\ webhookUrl (ui w') = webhookUrl (ui w)
  /\ storage w' = storage w
  /\ loading (ui w') = false.
Proof.
  intros A S w'. subst w'.
  destruct (sendDataBundle_failure x w A S) as (m & ->).
  repeat split; exact A || apply A.
Qed.

Lemma failed_submission_can_be_retried_witness :
  acceptable (ui (snd (sendDataBundle Samples.offline Samples.ready))).
Proof.
  apply (failed_submission_can_be_retried Samples.offline Samples.ready).
  - apply validateForm_sound. reflexivity.
  - reflexivity.
Defined.

(** X12.  A successful order whose success dialog is shown is not
    repeated by pressing Send again: the phone field is empty after the
    success, so the next press only shows the dialog that asks for a phone
    number; no request leaves and the store is not touched.  But when the
    order id or the balance of the answer cannot be rendered, the form is
    kept as it was, and the next press sends the same order a second
    time. *)
Theorem successful_order_is_not_repeated (x x2 : exchange) (w : W)
    (status : Z) (data : json) :
  acceptable (ui w) ->
  answer x = Response status (Some data) ->
  succeeded (answer x) = true ->
  let w1 := snd (sendDataBundle x w) in
  let w2 := snd (sendDataBundle x2 w1) in
  (dialog_renders data = true ->
   posts (trace w2) = posts (trace w1)
   /\ storage w2 = storage w1
   /\ last_dialog (trace w2)
      = Some ("Error", Text "Please enter a phone number"))
  /\ (dialog_renders data = false ->
      posts (trace w2)
      = posts (trace w) ++ [ requestBody (ui w) (clock w);
                             requestBody (ui w) (clock w1) ]).
Proof.
  intros A E S w1 w2.
  destruct (saveTransaction_frame data (posted x w)) as (U & _).
  cbn zeta in U.
  split; intros D.
  - assert (K : apiKey (ui w1) = apiKey (ui w) /\ phone (ui w1) = []).
    { unfold w1. rewrite (sendDataBundle_success x w status data A E S).
      unfold accepted. rewrite D.
      split; [|reflexivity].
      unfold completed.
      cbn [snd setLoading setPhone setWebhookUrl modify with_ui logged ui
           apiKey].
      now rewrite U. }
    destruct K as [K P].
    assert (V : validateForm w1 = refused "Please enter a phone number" w1).
    { destruct A as (C & _).
      assert (C1 : credential_present (ui w1))
        by (unfold credential_present; now rewrite K).
      assert (P1 : ~ phone_present (ui w1))
        by (unfold phone_present; rewrite P; intros H; now apply H).
      destruct (validateForm_cases w1)
        as [(N & _) | [(_ & _ & V) | [(_ & Q & _) | [(_ & Q & _)
           | ((_ & Q & _) & _)]]]]; try contradiction.
      exact V. }
    assert (R : sendDataBundle x2 w1
                = (Normal tt,
                   logged (Alert "Error" (Text "Please enter a phone number"))
                     w1)).
    { unfold sendDataBundle, bind. rewrite V. reflexivity. }
    unfold w2. rewrite R. cbn [snd logged trace storage].
    rewrite posts_app, last_dialog_alert. cbn [posts].
    now rewrite app_nil_r.
  - assert (F : ui w1
                = mkState (network (ui w)) (selectedSize (ui w))
                    (phone (ui w)) (webhookUrl (ui w)) false
                    (apiKey (ui w))).
    { unfold w1. rewrite (sendDataBundle_success x w status data A E S).
      unfold accepted. rewrite D. unfold unreported.
      cbn [snd setLoading modify with_ui logged ui].
      now rewrite U. }
    assert (A1 : acceptable (ui w1)) by (rewrite F; exact A).
    unfold w2. rewrite (sendDataBundle_posts x2 w1 A1).
    unfold w1 at 1. rewrite (sendDataBundle_posts x w A).
    rewrite <- app_assoc. cbn [app]. rewrite F. reflexivity.
Qed.

Lemma successful_order_is_not_repeated_witness :
  let w1 := snd (sendDataBundle (Samples.answered 200 (Some Samples.order))
                   Samples.ready) in
  List.length (posts (trace (snd (sendDataBundle Samples.offline w1))))
  = 1%nat.
Proof.
  destruct (successful_order_is_not_repeated
              (Samples.answered 200 (Some Samples.order)) Samples.offline
              Samples.ready 200 Samples.order) as (H & _).
  - apply validateForm_sound. reflexivity.
  - reflexivity.
  - reflexivity.
  - destruct (H eq_refl) as (P & _).
    cbn zeta in P. cbn zeta. rewrite P. reflexivity.
Defined.

Lemma validateForm_rekey (k : option jsstring) (w : W) :
  validateForm (rekey k w)
  = (fst (validateForm w), rekey k (snd (validateForm w))).
Proof.
  unfold validateForm, bind, gets, Alert_alert, emit, modify, ret.
  change (ui (rekey k w)) with (ui w).
  destruct (nonempty (trim (apiKey (ui w)))); [|reflexivity].
  destruct (nonempty (trim (phone (ui w)))); [|reflexivity].
  destruct (test_ten_digits (replace_whitespace (phone (ui w))));
    [|reflexivity].
  destruct (nonempty (webhookUrl (ui w))
            && negb (startsWith (webhookUrl (ui w)) (lit "https://")));
    reflexivity.
Qed.

Lemma saveTransaction_rekey (k : option jsstring) (data : json) (w : W) :
  snd (saveTransaction data (rekey k w))
  = rekey k (snd (saveTransaction data w)).
Proof.
  unfold saveTransaction, try_catch, bind, getItem_transactions,
    setItem_transactions, storage_call, Date_now, gets, console_error, emit,
    modify, rekey.
  destruct w as [u [ak tx] rj ck tr]. cbn [rejects with_storage storage].
  destruct (rj (GetItem "transactions")); [reflexivity|].
  destruct tx as [[[|c s]|[]]|]; cbn; try reflexivity;
    destruct (rj (SetItem "transactions")); reflexivity.
Qed.

(** X13.  A submission never reads the stored credential: it validates and
    sends the key the component holds since it was mounted.  With another
    key, or none, in the store, the same dialogs are shown, the same
    request is sent and the same log is written. *)
Theorem submission_ignores_stored_key (k : option jsstring) (x : exchange)
    (w : W) :
  sendDataBundle x (rekey k w)
  = (fst (sendDataBundle x w), rekey k (snd (sendDataBundle x w))).
Proof.
  destruct (acceptable_dec w) as [A | NA].
  - assert (A' : acceptable (ui (rekey k w))) by exact A.
    rewrite (sendDataBundle_run x w A), (sendDataBundle_run x _ A').
    cbn [fst snd]. f_equal.
    destruct (answer x) as [|status body]; [reflexivity|].
    destruct (succeeded (Response status body)) eqn:S; [|reflexivity].
    destruct body as [data|]; [|reflexivity].
    unfold accepted. destruct (dialog_renders data);
      unfold completed, unreported;
      change (posted x (rekey k w)) with (rekey k (posted x w));
      now rewrite saveTransaction_rekey.
  - destruct (validateForm_refused w NA) as (m & V).
    unfold sendDataBundle, bind.
    rewrite validateForm_rekey, V. reflexivity.
Qed.

(** X14.  White space in the phone field never matters: two inputs with the
    same characters once the white space is removed are accepted or
    refused alike, and lead to the same requests. *)
Theorem spaces_in_phone_do_not_matter (p1 p2 : jsstring) (x : exchange)
    (w : W) :
  replace_whitespace p1 = replace_whitespace p2 ->
  (acceptable (ui (with_phone p1 w)) <-> acceptable (ui (with_phone p2 w)))
  /\ posts (trace (snd (sendDataBundle x (with_phone p1 w))))
     = posts (trace (snd (sendDataBundle x (with_phone p2 w)))).
Proof.
  intros E.
  assert (I : forall a b, replace_whitespace a = replace_whitespace b ->
                acceptable (ui (with_phone a w)) ->
                acceptable (ui (with_phone b w))).
  { intros a b H (C & P & D & U).
    split; [exact C|]. split; [|split; [|exact U]].
    - unfold phone_present in *.
      change (phone (ui (with_phone a w))) with a in P.
      change (phone (ui (with_phone b w))) with b.
      apply stripped_nonempty. rewrite <- H. now apply stripped_nonempty.
    - unfold phone_ten_digits in *.
      change (phone (ui (with_phone a w))) with a in D.
      change (phone (ui (with_phone b w))) with b.
      now rewrite <- H. }
  split; [split; apply I; congruence|].
  assert (B : requestBody (ui (with_phone p1 w)) (clock (with_phone p1 w))
              = requestBody (ui (with_phone p2 w)) (clock (with_phone p2 w))).
  { unfold requestBody.
    change (phone (ui (with_phone p1 w))) with p1.
    change (phone (ui (with_phone p2 w))) with p2.
    now rewrite E. }
  destruct (acceptable_dec (with_phone p1 w)) as [A | NA].
  - rewrite (sendDataBundle_posts x _ A),
      (sendDataBundle_posts x _ (I p1 p2 E A)).
    now rewrite B.
  - assert (NB : ~ acceptable (ui (with_phone p2 w)))
      by (intros A; apply NA; now apply (I p2 p1)).
    destruct (sendDataBundle_refused x _ NA) as (m & ->).
    destruct (sendDataBundle_refused x _ NB) as (m' & ->).
    cbn [snd logged trace]. now rewrite !posts_app.
Qed.

Lemma spaces_in_phone_do_not_matter_witness :
  posts (trace (snd (sendDataBundle Samples.offline
                       (with_phone (lit "054 348 2280") Samples.ready))))
  = posts (trace (snd (sendDataBundle Samples.offline
                         (with_phone (lit "0543482280") Samples.ready)))).
Proof.
  apply (spaces_in_phone_do_not_matter (lit "054 348 2280")
           (lit "0543482280") Samples.offline Samples.ready).
  reflexivity.
Defined.

End Sessions.

(* ===================================================================== *)
(** * Sessions on the settings screen *)
(* ===================================================================== *)

Module SettingsSessions.
Import JS Eff Platform Settings SettingsActions StringFacts TrimFacts.

Ltac run :=
  cbv beta iota zeta delta
    [perform mount bind try_catch ret throw gets modify emit setApiKey
     setTempApiKey saveApiKey loadApiKey clearApiKey clearAllData
     getItem_api_key setItem_api_key removeItem_api_key multiRemove_all
     storage_call Alert_alert console_log console_error fst snd
     with_ui with_storage logged ui storage rejects clock trace
     apiKey tempApiKey api_key transactions stored_key tidy initial].

Lemma mount_frame {S : Type} (d : World S) :
  storage (mount d) = storage d /\ rejects (mount d) = rejects d.
Proof.
  destruct d as [u [[[|c k]|] l] rj ck tr]; run;
    destruct (rj (GetItem "api_key")); split; reflexivity.
Qed.

Lemma mount_mirror {S : Type} (d : World S) :
  rejects d (GetItem "api_key") = false ->
  apiKey (ui (mount d)) = stored_key (storage (mount d)).
Proof.
  destruct d as [u [[[|c k]|] l] rj ck tr]; run; intros ->; reflexivity.
Qed.

Lemma perform_mirror (a : action) (w : W) :
  removal_spares_key w ->
  apiKey (ui w) = stored_key (storage w) ->
  apiKey (ui (snd (perform a w))) = stored_key (storage (snd (perform a w))).
Proof.
  unfold removal_spares_key.
  destruct w as [[a0 t] [k l] rj ck tr]. destruct a as [s | | p | p]; run;
    intros C H.
  - exact H.
  - destruct (nonempty (trim t)); cbn [negb]; [|exact H].
    destruct (rj (SetItem "api_key")); [exact H | reflexivity].
  - destruct (nonempty a0); [|exact H].
    destruct p; [exact H|].
    destruct (rj (RemoveItem "api_key")); [exact H | reflexivity].
  - destruct p; [exact H|].
    destruct (rj (MultiRemove ["api_key"; "transactions"]));
      [|reflexivity].
    destruct C as [C | C]; [discriminate C|]. rewrite C. exact H.
Qed.

(** A key the store holds is the key the screen shows. *)
Lemma perform_shown (a : action) (w : W) :
  (forall k, api_key (storage w) = Some k -> apiKey (ui w) = k) ->
  forall k, api_key (storage (snd (perform a w))) = Some k ->
            apiKey (ui (snd (perform a w))) = k.
Proof.
  destruct w as [[a0 t] [k0 l] rj ck tr]. destruct a as [s | | p | p]; run;
    intros H k.
  - apply H.
  - destruct (nonempty (trim t)); cbn [negb]; [|apply H].
    destruct (rj (SetItem "api_key")); [apply H|].
    now intros [= <-].
  - destruct (nonempty a0); [|apply H].
    destruct p; [apply H|].
    destruct (rj (RemoveItem "api_key")); [apply H | discriminate].
  - destruct p; [apply H|].
    destruct (rj (MultiRemove ["api_key"; "transactions"]));
      [|discriminate].
    destruct (rj (RemoveOf ["api_key"; "transactions"] "api_key"));
      [apply H | discriminate].
Qed.

Lemma perform_rejects (a : action) (w : W) :
  rejects (snd (perform a w)) = rejects w.
Proof.
  destruct w as [[a0 t] [k l] rj ck tr]. destruct a as [s | | p | p]; run.
  - reflexivity.
  - destruct (nonempty (trim t)); cbn [negb]; [|reflexivity].
    destruct (rj (SetItem "api_key")); reflexivity.
  - destruct (nonempty a0); [|reflexivity].
    destruct p; [reflexivity|].
    destruct (rj (RemoveItem "api_key")); reflexivity.
  - destruct p; [reflexivity|].
    destruct (rj (MultiRemove ["api_key"; "transactions"])); reflexivity.
Qed.

Lemma perform_tidy (a : action) (w : W) :
  tidy (storage w) -> tidy (storage (snd (perform a w))).
Proof.
  destruct w as [[a0 t] [k l] rj ck tr]. destruct a as [s | | p | p]; run;
    intros H.
  - exact H.
  - destruct (nonempty (trim t)) eqn:N; cbn [negb]; [|exact H].
    destruct (rj (SetItem "api_key")); [exact H|].
    split; [now apply nonempty_true | apply trim_idempotent].
  - destruct (nonempty a0); [|exact H].
    destruct p; [exact H|].
    destruct (rj (RemoveItem "api_key")); [exact H | exact I].
  - destruct p; [exact H|].
    destruct (rj (MultiRemove ["api_key"; "transactions"])); [|exact I].
    destruct (rj (RemoveOf ["api_key"; "transactions"] "api_key"));
      [exact H | exact I].
Qed.

Lemma perform_all_rejects (actions : list action) (w : W) :
  rejects (perform_all actions w) = rejects w.
Proof.
  revert w. induction actions as [|a rest IH]; intros w; simpl;
    [reflexivity|].
  now rewrite IH, perform_rejects.
Qed.

Lemma perform_all_tidy (actions : list action) (w : W) :
  tidy (storage w) -> tidy (storage (perform_all actions w)).
Proof.
  revert w. induction actions as [|a rest IH]; intros w H; simpl;
    [exact H|].
  apply IH. now apply perform_tidy.
Qed.

(** X15.  The settings screen shows the key the store holds.  On a device
    whose store lets the key be read when the screen opens, after every
    sequence of inputs, saves, clears and clear-all (confirmed or
    cancelled, accepted by the store or rejected) a key that the store
    holds is the current key of the screen.  The current key is exactly
    the stored one (empty when the store holds none) provided a
    [multiRemove] that rejects has not removed the key; a clear-all that
    fails after it has removed the key leaves on the screen a key that the
    store no longer holds. *)
Theorem shown_key_is_stored_key {S : Type} (d : World S)
    (actions : list action) :
  rejects d (GetItem "api_key") = false ->
  let w := perform_all actions (mount d) in
  (forall k, api_key (storage w) = Some k -> apiKey (ui w) = k)
  /\ (rejects d (MultiRemove ["api_key"; "transactions"]) = false
      \/ rejects d (RemoveOf ["api_key"; "transactions"] "api_key") = true ->
      apiKey (ui w) = stored_key (storage w)).
Proof.
  intros R. cbn zeta.
  pose proof (mount_mirror d R) as M.
  destruct (mount_frame d) as (_ & RJ).
  split.
  - assert (I : forall k, api_key (storage (@mount S d)) = Some k ->
                          apiKey (ui (@mount S d)) = k).
    { intros k E. rewrite M. unfold stored_key. now rewrite E. }
    clear M RJ. revert I. generalize (@mount S d).
    induction actions as [|a rest IH]; intros w I; simpl; [exact I|].
    apply IH. now apply perform_shown.
  - intros C.
    assert (C' : removal_spares_key (@mount S d))
      by (unfold removal_spares_key; now rewrite RJ).
    clear RJ C. revert M C'. generalize (@mount S d).
    induction actions as [|a rest IH]; intros w M C; simpl; [exact M|].
    apply IH.
    + now apply perform_mirror.
    + unfold removal_spares_key in *. now rewrite perform_rejects.
Qed.

Lemma shown_key_is_stored_key_witness :
  apiKey (ui (perform_all
                [TypeKey (lit "  new-key "); PressSave; PressClear Cancel]
                (mount Samples.settings)))
  = lit "new-key".
Proof.
  destruct (shown_key_is_stored_key Samples.settings
              [TypeKey (lit "  new-key "); PressSave; PressClear Cancel])
    as (_ & H).
  - reflexivity.
  - cbn zeta in H. rewrite H; [reflexivity | left; reflexivity].
Defined.

(** X16.  The settings screen never stores a blank or padded key: if the
    stored key, when there is one, is not empty and has no white space
    around it, this still holds after every sequence of inputs, saves and
    clears. *)
Theorem stored_key_stays_tidy {S : Type} (d : World S)
    (actions : list action) :
  tidy (storage d) ->
  tidy (storage (perform_all actions (mount d))).
Proof.
  intros H. apply perform_all_tidy.
  destruct (mount_frame d) as (E & _). now rewrite E.
Qed.

Lemma stored_key_stays_tidy_witness :
  tidy (storage (perform_all [TypeKey (lit " k "); PressSave]
                   (mount Samples.settings))).
Proof.
  apply (stored_key_stays_tidy Samples.settings
           [TypeKey (lit " k "); PressSave]).
  split; [discriminate | reflexivity].
Defined.

End SettingsSessions.

(* ===================================================================== *)
(** * From one screen to another *)
(* ===================================================================== *)

Module Journeys.
Import JS Eff Platform FormRules LogRules SubmissionRules.
Import StringFacts TrimFacts Validation Log Submission Sessions.
Import SettingsSessions.

(** The key the send screen holds after it is mounted. *)
Lemma mount_key {S : Type} (d : World S) :
  SendData.apiKey (ui (SendActions.mount d))
  = if rejects d (GetItem "api_key") then []
    else SettingsActions.stored_key (storage d).
Proof.
  destruct d as [u [[[|c k]|] l] rj ck tr];
    unfold SendActions.mount, SendData.loadApiKey, try_catch, bind,
      getItem_api_key, storage_call; cbn [rejects storage];
    destruct (rj (GetItem "api_key")); reflexivity.
Qed.

Lemma perform_keeps_key (a : SendActions.action) (w : SendData.W) :
  SendData.apiKey (ui (snd (SendActions.perform a w)))
  = SendData.apiKey (ui w).
Proof.
  destruct a as [n | i | p | u | x | e]; simpl.
  - destruct n; reflexivity.
  - unfold bind, gets. cbn [fst snd].
    now destruct (nth_error (SendData.BUNDLE_SIZES
                               (SendData.network (ui w))) i).
  - reflexivity.
  - reflexivity.
  - unfold bind, gets. destruct (SendData.loading (ui w)); [reflexivity|].
    now destruct (sendDataBundle_keeps x w) as (_ & _ & K & _).
  - reflexivity.
Qed.

(** X17.  The send screen reads the stored key once, when it is mounted.
    Whatever the user types and presses afterwards, the key it validates
    and sends is the key the store held at that moment, and the empty
    string when the store held none or rejected the read. *)
Theorem key_is_read_once {S : Type} (d : World S)
    (actions : list SendActions.action) :
  SendData.apiKey (ui (SendActions.perform_all actions (SendActions.mount d)))
  = if rejects d (GetItem "api_key") then []
    else SettingsActions.stored_key (storage d).
Proof.
  rewrite <- mount_key. generalize (@SendActions.mount S d).
  induction actions as [|a rest IH]; intros w; simpl; [reflexivity|].
  rewrite IH. apply perform_keeps_key.
Qed.

Lemma perform_unsent (a : SendActions.action) (w : SendData.W) :
  trim (SendData.apiKey (ui w)) = [] ->
  posts (trace (snd (SendActions.perform a w))) = posts (trace w).
Proof.
  intros K. destruct a as [n | i | p | u | x | e]; simpl.
  - destruct n; reflexivity.
  - unfold bind, gets. cbn [fst snd].
    now destruct (nth_error (SendData.BUNDLE_SIZES
                               (SendData.network (ui w))) i).
  - reflexivity.
  - reflexivity.
  - unfold bind, gets. destruct (SendData.loading (ui w)); [reflexivity|].
    assert (NA : ~ acceptable (ui w)) by (intros (C & _); now apply C).
    destruct (sendDataBundle_refused x w NA) as (m & ->).
    cbn [snd logged trace]. rewrite posts_app. apply app_nil_r.
  - reflexivity.
Qed.

(** X18.  Without a stored key nothing is ever sent.  If the store holds no
    key, or a blank one, or rejects the read when the send screen is
    mounted, then no sequence of inputs and presses on that screen sends
    a request. *)
Theorem nothing_is_sent_without_a_key {S : Type} (d : World S)
    (actions : list SendActions.action) :
  trim (SettingsActions.stored_key (storage d)) = []
  \/ rejects d (GetItem "api_key") = true ->
  posts (trace (SendActions.perform_all actions (SendActions.mount d)))
  = posts (trace d).
Proof.
  intros H.
  assert (K : trim (SendData.apiKey (ui (@SendActions.mount S d))) = []).
  { rewrite mount_key. destruct H as [H | ->]; [|reflexivity].
    now destruct (rejects d (GetItem "api_key")). }
  assert (P : posts (trace (@SendActions.mount S d)) = posts (trace d)).
  { unfold SendActions.mount.
    destruct (loadApiKey_keeps
                (mkWorld SendData.initial (storage d) (rejects d) (clock d)
                   (trace d))) as (_ & _ & _ & _ & _ & P).
    exact P. }
  revert K P. generalize (@SendActions.mount S d).
  induction actions as [|a rest IH]; intros w K P; simpl; [exact P|].
  apply IH.
  - now rewrite perform_keeps_key.
  - now rewrite perform_unsent.
Qed.

Lemma nothing_is_sent_without_a_key_witness :
  posts (trace (SendActions.perform_all
                  [SendActions.TypePhone (lit "0543482280");
                   SendActions.PressSend Samples.offline]
                  (SendActions.mount (Samples.form "key" "" ""))))
  = [].
Proof.
  apply (nothing_is_sent_without_a_key (Samples.form "key" "" "")
           [SendActions.TypePhone (lit "0543482280");
            SendActions.PressSend Samples.offline]).
  left. reflexivity.
Defined.

(** X19.  A key saved on the settings screen is a key the send form
    accepts.  From a store whose key, if any, is not blank or padded and
    can be read, after every sequence of actions on the settings screen a
    send screen that is mounted then holds exactly the stored key, and its
    first rule (a key is present) holds exactly when the store holds
    one. *)
Theorem saved_key_reaches_send_form {S : Type} (d : World S)
    (actions : list SettingsActions.action) :
  SettingsActions.tidy (storage d) ->
  rejects d (GetItem "api_key") = false ->
  let w := SettingsActions.perform_all actions (SettingsActions.mount d) in
  let s := SendActions.mount w in
  SendData.apiKey (ui s) = SettingsActions.stored_key (storage w)
  /\ (credential_present (ui s) <-> api_key (storage w) <> None).
Proof.
  intros T R w s.
  assert (Tw : SettingsActions.tidy (storage w)).
  { apply perform_all_tidy. destruct (mount_frame d) as (E & _).
    now rewrite E. }
  assert (Rw : rejects w (GetItem "api_key") = false).
  { unfold w. rewrite perform_all_rejects.
    destruct (mount_frame d) as (_ & E). now rewrite E. }
  assert (K : SendData.apiKey (ui s) = SettingsActions.stored_key (storage w)).
  { unfold s. now rewrite mount_key, Rw. }
  split; [exact K|].
  unfold credential_present. rewrite K.
  unfold SettingsActions.stored_key, SettingsActions.tidy in *.
  destruct (api_key (storage w)) as [k|].
  - destruct Tw as (N & E). rewrite E. split; [discriminate | now intros _].
  - split; [intros H; now contradiction H | intros H; now contradiction H].
Qed.

Lemma saved_key_reaches_send_form_witness :
  SendData.apiKey
    (ui (SendActions.mount
           (SettingsActions.perform_all
              [SettingsActions.TypeKey (lit " fresh "); SettingsActions.PressSave]
              (SettingsActions.mount Samples.settings))))
  = lit "fresh".
Proof.
  destruct (saved_key_reaches_send_form Samples.settings
              [SettingsActions.TypeKey (lit " fresh ");
               SettingsActions.PressSave]) as (K & _).
  - split; [discriminate | reflexivity].
  - reflexivity.
  - cbn zeta in K. rewrite K. reflexivity.
Defined.

End Journeys.

(* ===================================================================== *)
(** * The history screen *)
(* ===================================================================== *)

Module HistoryFacts.
Import JS Eff Platform FormRules LogRules SubmissionRules HistoryRules.
Import StringFacts Validation Log Submission Entries Sessions.

Ltac run :=
  cbv beta iota zeta delta
    [History.loadTransactions History.onRefresh History.clearHistory
     History.setTransactions History.setRefreshing
     History.removeItem_transactions History.mount History.initial
     bind try_catch ret throw gets modify emit getItem_transactions
     storage_call JSON_parse text_truthy nonempty console_error fst snd
     with_ui with_storage logged ui storage rejects clock trace
     History.transactions History.refreshing api_key transactions
     decoded_log].

Lemma dialogs_app (a b : list event) :
  dialogs (a ++ b) = dialogs a ++ dialogs b.
Proof.
  induction a as [|[] a IH]; simpl; [reflexivity| |assumption..].
  now rewrite IH.
Qed.

(** X20.  When the history screen is mounted, its state [transactions]
    becomes what the stored log decodes to, and stays the empty list when
    the log is absent, empty, not JSON, or cannot be read.  Mounting never
    writes to the store, never shows a dialog and sends no request. *)
Theorem mount_shows_decoded_log {S : Type} (d : World S) :
  let h := History.mount d in
  History.transactions (ui h)
  = match decoded_log d with
    | Some v => v
    | None => JArr []
    end
  /\ History.refreshing (ui h) = false
  /\ storage h = storage d
  /\ dialogs (trace h) = dialogs (trace d)
  /\ posts (trace h) = posts (trace d).
Proof.
  destruct d as [u [k t] rj ck tr]. run.
  destruct (rj (GetItem "transactions")).
  - rewrite dialogs_app, posts_app. cbn. rewrite !app_nil_r.
    repeat split.
  - destruct t as [[[|c s]|v]|]; cbn [fst snd];
      rewrite ?dialogs_app, ?posts_app; cbn; rewrite ?app_nil_r;
      repeat split.
Qed.

(** X21.  A refresh always ends with the spinner off, because loading
    never throws.  It replaces the list shown only when the stored log
    can be read and decoded; when the log is absent, empty, not JSON or
    unreadable the list stays as it was, so entries removed from the
    store in the meantime are still shown. *)
Theorem onRefresh_shows_log_or_keeps_list (h : History.W) :
  let h' := snd (History.onRefresh h) in
  fst (History.onRefresh h) = Normal tt
  /\ History.refreshing (ui h') = false
  /\ History.transactions (ui h')
     = match decoded_log h with
       | Some v => v
       | None => History.transactions (ui h)
       end
  /\ storage h' = storage h
  /\ dialogs (trace h') = dialogs (trace h).
Proof.
  destruct h as [[l r] [k t] rj ck tr]. run.
  destruct (rj (GetItem "transactions")).
  - rewrite dialogs_app. cbn. rewrite !app_nil_r. repeat split.
  - destruct t as [[[|c s]|v]|]; cbn [fst snd];
      rewrite ?dialogs_app; cbn; rewrite ?app_nil_r; repeat split.
Qed.

(** X22.  Clearing the history removes the log and nothing else: the
    stored key is kept.  When the store accepts the removal the list
    shown becomes empty; when it rejects it, the store and the list stay
    as they were and the user is not told: the failure goes to the
    console only, no dialog is shown. *)
Theorem clearHistory_removes_only_the_log (h : History.W) :
  let h' := snd (History.clearHistory h) in
  fst (History.clearHistory h) = Normal tt
  /\ api_key (storage h') = api_key (storage h)
  /\ dialogs (trace h') = dialogs (trace h)
  /\ (rejects h (RemoveItem "transactions") = false ->
      transactions (storage h') = None
      /\ History.transactions (ui h') = JArr []
      /\ trace h' = trace h)
  /\ (rejects h (RemoveItem "transactions") = true ->
      storage h' = storage h
      /\ ui h' = ui h
      /\ trace h'
         = trace h ++ [ConsoleError "Error clearing history:" StorageError]).
Proof.
  destruct h as [[l r] [k t] rj ck tr]. run.
  destruct (rj (RemoveItem "transactions")); cbn [fst snd];
    rewrite ?dialogs_app; cbn; rewrite ?app_nil_r;
    repeat split; discriminate.
Qed.

Lemma mount_shows {S : Type} (d : World S) (v : json) :
  rejects d (GetItem "transactions") = false ->
  transactions (storage d) = Some (JsonText v) ->
  History.transactions (ui (History.mount d)) = v.
Proof.
  destruct d as [u [k t] rj ck tr]. run. intros -> ->. reflexivity.
Qed.

(** X23.  What is sent reaches the history.  After a submission whose
    answer is a success, on a store that accepts every operation and whose
    log is a sequence (or is absent or empty), the state [transactions]
    of a history screen mounted afterwards holds the new entry first,
    stamped with the time the response arrived, then the entries stored
    before, fifty at most in all, each as [JSON.stringify] wrote it. *)
Theorem successful_order_appears_in_history (x : exchange) (w : SendData.W)
    (status : Z) (data : json) (old : list json) :
  acceptable (ui w) ->
  answer x = Response status (Some data) ->
  succeeded (answer x) = true ->
  reliable w ->
  starting_sequence (storage w) = Some old ->
  History.transactions
    (ui (History.mount (snd (SendData.sendDataBundle x w))))
  = JArr (stored
            (firstn cap
               (SendData.newTransaction data (clock w + Z.of_N (latency x))
                  :: old))).
Proof.
  intros A E S R O.
  apply mount_shows.
  - destruct (sendDataBundle_keeps x w) as (_ & _ & _ & _ & K).
    cbn zeta in K. rewrite K. apply R.
  - rewrite (sendDataBundle_success x w status data A E S).
    assert (ST : storage (accepted data x w)
                 = storage (snd (SendData.saveTransaction data (posted x w))))
      by (unfold accepted; now destruct (dialog_renders data)).
    rewrite ST.
    rewrite (saveTransaction_from_start data (posted x w) old);
      [reflexivity | exact R | exact O].
Qed.

Lemma successful_order_appears_in_history_witness :
  History.transactions
    (ui (History.mount
           (snd (SendData.sendDataBundle
                   (Samples.answered 200 (Some Samples.order))
                   Samples.ready))))
  = JArr [SendData.newTransaction Samples.order 1700000000120].
Proof.
  rewrite (successful_order_appears_in_history
             (Samples.answered 200 (Some Samples.order)) Samples.ready
             200 Samples.order []).
  - reflexivity.
  - apply validateForm_sound. reflexivity.
  - reflexivity.
  - reflexivity.
  - intros op. reflexivity.
  - reflexivity.
Defined.

(** X24.  The icon of a status and its label always have the same colour,
    and the colour is grey unless the status is one of the strings
    [initiated], [completed] and [failed]: a missing status, a status in
    capitals or a status that is not a string is shown in grey. *)
Theorem status_icon_and_label_agree (status : value) :
  snd (History.getStatusIcon status) = History.getStatusColor status
  /\ (History.getStatusColor status <> History.grey ->
      exists name, status = Some (JStr (lit name))
                   /\ In name ["initiated"; "completed"; "failed"]).
Proof.
  unfold History.getStatusIcon, History.getStatusColor.
  destruct (is_string status (lit "initiated")) eqn:E1;
    [split; [reflexivity|]; intros _; exists "initiated"|].
  { destruct status as [[]|]; try discriminate.
    apply jsstring_eqb_eq in E1. subst. split; [reflexivity | now left]. }
  destruct (is_string status (lit "completed")) eqn:E2;
    [split; [reflexivity|]; intros _; exists "completed"|].
  { destruct status as [[]|]; try discriminate.
    apply jsstring_eqb_eq in E2. subst.
    split; [reflexivity | right; now left]. }
  destruct (is_string status (lit "failed")) eqn:E3;
    [split; [reflexivity|]; intros _; exists "failed"|].
  { destruct status as [[]|]; try discriminate.
    apply jsstring_eqb_eq in E3. subst.
    split; [reflexivity | right; right; now left]. }
  split; [reflexivity | intros H; now contradiction H].
Qed.

End HistoryFacts.
